(** * Command interpreter of the ATECC608A example (src/atecc608a/main.c)

    A shallow embedding of [interactive_loop], [prompt_confirmation],
    [print_device_info], [run_tests] and [main].  The secure-element driver
    and the PSA crypto framework are external: every call into them goes
    through an oracle [env] that answers with a status and output data and
    may change its own (hidden) state.  Standard input is a finite list of
    characters, standard output and the external calls are recorded in one
    chronological trace. *)

From Stdlib Require Import ZArith List Ascii String Bool Lia DecimalString.
From Stdlib Require DecimalPos.
Import ListNotations.
Local Open Scope Z_scope.

(** ** C strings *)

Module CString.

Definition code (c : ascii) : Z := Z.of_N (N_of_ascii c).

Definition str (s : string) : list ascii := list_ascii_of_string s.

(** [isspace] in the C locale: space, and the controls 9 to 13. *)
Definition isspace (c : ascii) : bool :=
  (code c =? 32) || ((9 <=? code c) && (code c <=? 13)).

Definition isdigit (c : ascii) : bool :=
  (48 <=? code c) && (code c <=? 57).

(** What the string functions see of a buffer: the bytes before the first
    NUL. *)
Fixpoint c_str (buf : list ascii) : list ascii :=
  match buf with
  | [] => []
  | c :: buf' => if code c =? 0 then [] else c :: c_str buf'
  end.

Definition strlen (s : list ascii) : Z := Z.of_nat (List.length s).

(** [strcmp]: difference of the first two bytes that differ; the end of a
    list is the terminating NUL. *)
Fixpoint strcmp (s t : list ascii) : Z :=
  match s, t with
  | [], [] => 0
  | [], b :: _ => 0 - code b
  | a :: _, [] => code a
  | a :: s', b :: t' => if code a =? code b then strcmp s' t' else code a - code b
  end.

Fixpoint strncmp (s t : list ascii) (n : nat) {struct n} : Z :=
  match n with
  | O => 0
  | S n' =>
      match s, t with
      | [], [] => 0
      | [], b :: _ => 0 - code b
      | a :: _, [] => code a
      | a :: s', b :: t' =>
          if code a =? code b then strncmp s' t' n' else code a - code b
      end
  end.

(** [strchr s ch]: the suffix of [s] that starts at the first [ch], or
    [None] for the null pointer. *)
Fixpoint strchr (s : list ascii) (ch : ascii) : option (list ascii) :=
  match s with
  | [] => None
  | c :: s' => if Ascii.eqb c ch then Some s else strchr s' ch
  end.

(** [strrchr s ch]: the suffix of [s] that starts at the last [ch]. *)
Fixpoint strrchr (s : list ascii) (ch : ascii) : option (list ascii) :=
  match s with
  | [] => None
  | c :: s' =>
      match strrchr s' ch with
      | Some p => Some p
      | None => if Ascii.eqb c ch then Some s else None
      end
  end.

Definition INT_MIN : Z := - 2147483648.
Definition INT_MAX : Z := 2147483647.

Fixpoint skip_space (s : list ascii) : list ascii :=
  match s with
  | [] => []
  | c :: s' => if isspace c then skip_space s' else s
  end.

Fixpoint digits (acc : Z) (s : list ascii) : Z :=
  match s with
  | [] => acc
  | c :: s' => if isdigit c then digits (10 * acc + (code c - 48)) s' else acc
  end.

(** [atoi]: leading white space, an optional sign, then decimal digits up
    to the first other character.  C leaves the result undefined when the
    value is not representable as an [int]: [None]. *)
Definition atoi (s : list ascii) : option Z :=
  let v :=
    match skip_space s with
    | "-"%char :: s' => - digits 0 s'
    | "+"%char :: s' => digits 0 s'
    | s' => digits 0 s'
    end in
  if (INT_MIN <=? v) && (v <=? INT_MAX) then Some v else None.

(** The cast [(uint16_t) x]. *)
Definition to_uint16 (x : Z) : Z := x mod 65536.

(** [scanf("%<width>s", buf)]: skips white space, then stores at most
    [width] characters up to the next white space, which stays in the
    stream.  [None] when the stream ends before a character is stored. *)
Fixpoint read_token (width : nat) (s : list ascii) : list ascii * list ascii :=
  match width, s with
  | S w, c :: s' =>
      if isspace c then ([], s)
      else let (tok, rest) := read_token w s' in (c :: tok, rest)
  | _, _ => ([], s)
  end.

Definition scan_s (width : nat) (input : list ascii)
  : option (list ascii * list ascii) :=
  match skip_space input with
  | [] => None
  | s => Some (read_token width s)
  end.

End CString.

Import CString.

(** ** External interface *)

Inductive lock_zone := LOCK_ZONE_CONFIG | LOCK_ZONE_DATA.

(** The three key types main.c names. *)
Inductive psa_key_type :=
| key_type | keypair_type | PSA_KEY_TYPE_RSA_PUBLIC_KEY.

(** The functions main.c calls and does not define, with the arguments that
    vary between call sites.  For [p_generate], [pubkey] and [pubkey_len]
    say whether the pointer passed is non-null. *)
Inductive ext_call :=
| psa_crypto_init
| atecc608a_init
| atecc608a_deinit
| atcab_hw_sha2_256 (input : list Z)
| atcab_is_locked (zone : lock_zone)
| atcab_is_slot_locked (slot : Z)
| atecc608a_get_serial_number
| atcab_printbin_sp (bin : list Z)
| atcab_read_config_zone
| atcab_printbin_label (bin : list Z)
| atecc608a_check_zone_locked (zone : lock_zone)
| atecc608a_random_32_bytes
| atecc608a_write (slot offset : Z) (bytes : list Z)
| atecc608a_read (slot offset length : Z)
| p_generate (slot : Z) (type : psa_key_type) (bits : Z)
             (pubkey : bool) (pubkey_size : Z) (pubkey_len : bool)
| p_import (slot : Z) (key : list Z) (key_length : Z)
| p_export (slot : Z)
| p_sign (slot : Z) (hash : list Z)
| p_verify (slot : Z) (hash signature : list Z)
| psa_allocate_key
| psa_key_policy_set_usage
| psa_set_key_policy (handle : Z)
| psa_import_key (handle : Z) (key : list Z)
| psa_asymmetric_verify (handle : Z) (hash signature : list Z)
| atecc608a_write_lock_config
| atecc608a_lock_data_zone.

(** What an external call hands back: its return value and the bytes it
    wrote through its output pointers. *)
Record reply := { status : Z; data : list Z }.

(** What the absent headers and libraries provide: the oracle answering
    external calls over its own state [W], and the constants main.c uses
    without defining them. *)
Record platform (W : Type) := {
  env : ext_call -> W -> reply * W;
  PSA_ERROR_HARDWARE_FAILURE : Z;
  PSA_ERROR_INVALID_ARGUMENT : Z;
  PSA_ERROR_NOT_SUPPORTED : Z;
  PSA_ERROR_BUFFER_TOO_SMALL : Z;
  atecc608a_to_psa_error : Z -> Z;
  pubkey_size : Z;
  hash_size : nat
}.

Arguments env {W}.
Arguments PSA_ERROR_HARDWARE_FAILURE {W}.
Arguments PSA_ERROR_INVALID_ARGUMENT {W}.
Arguments PSA_ERROR_NOT_SUPPORTED {W}.
Arguments PSA_ERROR_BUFFER_TOO_SMALL {W}.
Arguments atecc608a_to_psa_error {W}.
Arguments pubkey_size {W}.
Arguments hash_size {W}.

(** Modelled from the spec: [PSA_SUCCESS] is a constant of psa/crypto.h,
    absent from src/; the spec has a non-zero status indicate failure, so
    success is zero. *)
Definition PSA_SUCCESS : Z := 0.

(** Modelled from the spec: [ATCA_SUCCESS] is a constant of the device
    library, absent from src/; as for [PSA_SUCCESS], success is zero. *)
Definition ATCA_SUCCESS : Z := 0.

Definition key_bits : Z := 256.

(** ** Program state and the monad of main.c *)

Inductive event :=
| Printf (format : string) (args : list Z)
| PrintfS (format : string) (arg : list ascii)
| Call (c : ext_call).

Record state (W : Type) := mkState {
  atecc608a_private_key_slot : Z;
  atecc608a_public_key_slot : Z;
  stdin : list ascii;
  trace : list event;
  world : W
}.

Arguments mkState {W}.
Arguments atecc608a_private_key_slot {W}.
Arguments atecc608a_public_key_slot {W}.
Arguments stdin {W}.
Arguments trace {W}.
Arguments world {W}.

(** A run either returns, or waits for input that never comes ([NoInput]:
    the stream ended and the buffer [scanf] was to fill is not written), or
    does something C leaves undefined ([Undefined]). *)
Inductive outcome (W A : Type) :=
| Ret (a : A) (s : state W)
| NoInput
| Undefined.

Arguments Ret {W A}.
Arguments NoInput {W A}.
Arguments Undefined {W A}.

Definition M (W A : Type) : Type := state W -> outcome W A.

Definition ret {W A} (a : A) : M W A := fun s => Ret a s.

Definition bind {W A B} (m : M W A) (k : A -> M W B) : M W B :=
  fun s =>
    match m s with
    | Ret a s' => k a s'
    | NoInput => NoInput
    | Undefined => Undefined
    end.

Declare Scope prog_scope.
Delimit Scope prog_scope with prog.
Notation "x <- m ;; k" := (bind m (fun x => k))
  (at level 61, m at next level, right associativity) : prog_scope.
Notation "m ;;; k" := (bind m (fun _ => k))
  (at level 61, right associativity) : prog_scope.
Local Open Scope prog_scope.

Definition undefined {W A} : M W A := fun _ => Undefined.

Definition emit {W} (e : event) : M W unit :=
  fun s =>
    Ret tt (mkState (atecc608a_private_key_slot s)
                    (atecc608a_public_key_slot s)
                    (stdin s) (trace s ++ [e]) (world s)).

Definition printf {W} (format : string) (args : list Z) : M W unit :=
  emit (Printf format args).

Definition scanf {W} (width : nat) : M W (list ascii) :=
  fun s =>
    match scan_s width (stdin s) with
    | None => NoInput
    | Some (buf, rest) =>
        Ret buf (mkState (atecc608a_private_key_slot s)
                         (atecc608a_public_key_slot s)
                         rest (trace s) (world s))
    end.

Definition get_private_key_slot {W} : M W Z :=
  fun s => Ret (atecc608a_private_key_slot s) s.

Definition get_public_key_slot {W} : M W Z :=
  fun s => Ret (atecc608a_public_key_slot s) s.

Definition set_private_key_slot {W} (slot : Z) : M W unit :=
  fun s =>
    Ret tt (mkState slot (atecc608a_public_key_slot s)
                    (stdin s) (trace s) (world s)).

Definition set_public_key_slot {W} (slot : Z) : M W unit :=
  fun s =>
    Ret tt (mkState (atecc608a_private_key_slot s) slot
                    (stdin s) (trace s) (world s)).

Fixpoint memcmp (a b : list Z) (n : nat) : Z :=
  match n with
  | O => 0
  | S n' =>
      if hd 0 a =? hd 0 b then memcmp (tl a) (tl b) n' else hd 0 a - hd 0 b
  end.

Definition USAGE : string :=
  "\n\nAvailable commands:\n - info - print configuration information;\n - test - run all tests on the device;\n - exit - exit the interactive loop;\n - generate_private[=%%d] - generate a private key in a given slot (0-15),\n                          default slot - 0.\n - generate_public=%%d_%%d - generate a public key in a given slot\n                           (0-15, first argument) using a private key\n                           from a given slot (0-15, second argument);\n - private_slot=%%d - designate a slot to be used as a private key in tests;\n - public_slot=%%d - designate a slot to be used as a public key in tests;\n - write_lock_config - write a hardcoded configuration to the device,\n                       lock it;\n - lock_data - lock the data zone;\n\n".

Definition WARNING_CONFIG : string :=
  "\n\nWarning! Locking a configuration zone is irreversible.\nPlease make sure that a desired configuration is used in the process.\nAre you sure you want to proceed? [y/n]: ".

Definition WARNING_DATA : string :=
  "\n\nWarning! Locking the data/OTP zone is irreversible.\nPlease note that locking the data/OTP zone does not mean that\nthe values in these zones cannot be modified; locking indicates that\nthe slot now behaves according to the policies set by the associated\nconfiguration zone’s values. [y/n]: ".

(** The branches of the [if]/[else if] chain of [interactive_loop]. *)
Inductive command_kind :=
| CmdInfo | CmdExit | CmdTest
| CmdGeneratePrivate | CmdGeneratePublic
| CmdWriteLockConfig | CmdLockData
| CmdPrivateSlot | CmdPublicSlot
| CmdUnrecognized.

(** The conditions of the chain (main.c lines 474 to 605), in order. *)
Definition dispatch (command : list ascii) : command_kind :=
  if strcmp command (str "info") =? 0 then CmdInfo
  else if strcmp command (str "exit") =? 0 then CmdExit
  else if strcmp command (str "test") =? 0 then CmdTest
  else if strncmp command (str "generate_private")
            (Z.to_nat (strlen (str "generate_private") - 1)) =? 0
       then CmdGeneratePrivate
  else if strncmp command (str "generate_public")
            (Z.to_nat (strlen (str "generate_public") - 1)) =? 0
       then CmdGeneratePublic
  else if strcmp command (str "write_lock_config") =? 0 then CmdWriteLockConfig
  else if strcmp command (str "lock_data") =? 0 then CmdLockData
  else if strncmp command (str "private_slot")
            (Z.to_nat (strlen (str "private_slot") - 1)) =? 0
       then CmdPrivateSlot
  else if strncmp command (str "public_slot")
            (Z.to_nat (strlen (str "public_slot") - 1)) =? 0
       then CmdPublicSlot
  else CmdUnrecognized.

Section Interpreter.

Context {W : Type} (P : platform W).

Definition call (c : ext_call) : M W reply :=
  fun s =>
    let (r, w) := env P c (world s) in
    Ret r (mkState (atecc608a_private_key_slot s)
                   (atecc608a_public_key_slot s)
                   (stdin s) (trace s ++ [Call c]) w).

(** An expression of type [psa_status_t] or [int] that writes no output. *)
Definition value (m : M W Z) : M W reply :=
  v <- m ;; ret {| status := v; data := [] |}.

(** [ASSERT_STATUS_PSA] (main.c lines 35 to 49): on a mismatch print, set
    [status] to [psa_error] and jump to [exit]; otherwise set [status] to
    [PSA_SUCCESS] and go on with [rest], which receives what the expression
    wrote.  [rest] ends in [ret PSA_SUCCESS] where the function falls
    through to its [exit] label. *)
Definition ASSERT_STATUS_PSA (expression : M W reply) (expected : Z)
    (psa_error : Z -> Z) (rest : list Z -> M W Z) : M W Z :=
  r <- expression ;;
  if negb (status r =? expected) then
    (printf "assertion failed at %s:%d (actual=%ld expected=%ld)\n"
            [status r; expected] ;;;
     ret (psa_error (status r)))
  else rest (data r).

(** Modelled from the spec: [ASSERT_SUCCESS_PSA], [ASSERT_STATUS] and
    [ASSERT_SUCCESS] are macros of atecc608a_utils.h, absent from src/.
    They are the fail-fast checks of the spec, of the shape of
    [ASSERT_STATUS_PSA] above: [ASSERT_SUCCESS_PSA] expects [PSA_SUCCESS]
    and leaves the status of the failed call in [status] (the exit status
    of the process is the status of the initialization call);
    [ASSERT_SUCCESS] expects [ATCA_SUCCESS] and translates the error. *)
Definition ASSERT_SUCCESS_PSA (expression : M W reply)
    (rest : list Z -> M W Z) : M W Z :=
  ASSERT_STATUS_PSA expression PSA_SUCCESS (fun ASSERT_result => ASSERT_result)
                    rest.

Definition ASSERT_STATUS (expression : M W reply) (expected : Z)
    (psa_error : Z -> Z) (rest : list Z -> M W Z) : M W Z :=
  r <- expression ;;
  if negb (status r =? expected) then
    (printf "assertion failed at %s:%d (actual=%d expected=%d)\n"
            [status r; expected] ;;;
     ret (psa_error (status r)))
  else rest (data r).

Definition ASSERT_SUCCESS (expression : M W reply)
    (rest : list Z -> M W Z) : M W Z :=
  ASSERT_STATUS expression ATCA_SUCCESS (atecc608a_to_psa_error P) rest.

Definition atecc608a_hash_sha256 (input expected_hash : list Z) : M W Z :=
  status <-
    ASSERT_SUCCESS_PSA (call atecc608a_init) (fun _ =>
    ASSERT_SUCCESS (call (atcab_hw_sha2_256 input)) (fun actual_hash =>
    ASSERT_STATUS (value (ret (memcmp actual_hash expected_hash 32))) 0
                  (fun _ => PSA_ERROR_HARDWARE_FAILURE P) (fun _ =>
    ret PSA_SUCCESS))) ;;
  call atecc608a_deinit ;;;
  ret status.

Fixpoint print_slot_locks (slots : list Z) (rest : M W Z) : M W Z :=
  match slots with
  | [] => rest
  | i :: slots' =>
      ASSERT_SUCCESS (call (atcab_is_slot_locked i)) (fun locked =>
      printf "  - Slot %d locked: %d\n" [i; hd 0 locked] ;;;
      print_slot_locks slots' rest)
  end.

Definition atecc608a_print_locked_zones : M W Z :=
  printf "--- Device locks information ---\n" [] ;;;
  status <-
    ASSERT_SUCCESS_PSA (call atecc608a_init) (fun _ =>
    ASSERT_SUCCESS (call (atcab_is_locked LOCK_ZONE_CONFIG)) (fun locked =>
    printf "  - Config locked: %d\n" [hd 0 locked] ;;;
    ASSERT_SUCCESS (call (atcab_is_locked LOCK_ZONE_DATA)) (fun locked =>
    printf "  - Data locked: %d\n" [hd 0 locked] ;;;
    print_slot_locks (map Z.of_nat (seq 0 16))
      (printf "--------------------------------\n" [] ;;;
       ret PSA_SUCCESS)))) ;;
  call atecc608a_deinit ;;;
  ret status.

Definition atecc608a_print_serial_number : M W Z :=
  ASSERT_SUCCESS_PSA (call atecc608a_get_serial_number) (fun serial =>
  printf "Serial Number:\n" [] ;;;
  call (atcab_printbin_sp serial) ;;;
  printf "\n" [] ;;;
  ret PSA_SUCCESS).

Definition atecc608a_print_config_zone : M W Z :=
  status <-
    ASSERT_SUCCESS_PSA (call atecc608a_init) (fun _ =>
    ASSERT_SUCCESS (call atcab_read_config_zone) (fun config_buffer =>
    call (atcab_printbin_label config_buffer) ;;;
    ret PSA_SUCCESS)) ;;
  call atecc608a_deinit ;;;
  ret status.

Definition test_write_read_slot (slot : Z) : M W Z :=
  ASSERT_SUCCESS_PSA (call atecc608a_random_32_bytes) (fun data_write =>
  ASSERT_SUCCESS_PSA (call (atecc608a_write slot 0 data_write)) (fun _ =>
  ASSERT_SUCCESS_PSA (call (atecc608a_read slot 0 32)) (fun data_read =>
  ASSERT_STATUS (value (ret (memcmp data_write data_read 32))) 0
                (fun _ => PSA_ERROR_HARDWARE_FAILURE P) (fun _ =>
  printf "test_write_read_slot succesful!\n" [] ;;;
  ret PSA_SUCCESS)))).

Definition test_psa_import_verify : M W Z :=
  let hash := repeat 0 31 ++ [1] in
  private_slot <- get_private_key_slot ;;
  ASSERT_SUCCESS_PSA (call (p_sign private_slot hash)) (fun signature =>
  private_slot <- get_private_key_slot ;;
  ASSERT_SUCCESS_PSA (call (p_export private_slot)) (fun pubkey =>
  ASSERT_SUCCESS_PSA (call psa_allocate_key) (fun verify_handle =>
  call psa_key_policy_set_usage ;;;
  ASSERT_SUCCESS_PSA (call (psa_set_key_policy (hd 0 verify_handle))) (fun _ =>
  ASSERT_SUCCESS_PSA
    (call (psa_import_key (hd 0 verify_handle) pubkey)) (fun _ =>
  ASSERT_SUCCESS_PSA
    (call (psa_asymmetric_verify (hd 0 verify_handle) hash signature)) (fun _ =>
  printf "test_psa_import_verify succesful!\n" [] ;;;
  ret PSA_SUCCESS)))))).

Definition test_generate_import : M W Z :=
  let bad_key_id := 16 in
  let bad_key_type := PSA_KEY_TYPE_RSA_PUBLIC_KEY in
  let bad_key_bits := 5 in
  let bad_buffer_size := 64 in
  ASSERT_STATUS_PSA
    (call (p_generate bad_key_id keypair_type key_bits true (pubkey_size P) true))
    (PSA_ERROR_INVALID_ARGUMENT P) (fun _ => PSA_ERROR_HARDWARE_FAILURE P)
    (fun _ =>
  private_slot <- get_private_key_slot ;;
  ASSERT_STATUS_PSA
    (call (p_generate private_slot bad_key_type key_bits true (pubkey_size P) true))
    (PSA_ERROR_NOT_SUPPORTED P) (fun _ => PSA_ERROR_HARDWARE_FAILURE P)
    (fun _ =>
  private_slot <- get_private_key_slot ;;
  ASSERT_STATUS_PSA
    (call (p_generate private_slot keypair_type bad_key_bits true
                      (pubkey_size P) true))
    (PSA_ERROR_NOT_SUPPORTED P) (fun _ => PSA_ERROR_HARDWARE_FAILURE P)
    (fun _ =>
  private_slot <- get_private_key_slot ;;
  ASSERT_STATUS_PSA
    (call (p_generate private_slot keypair_type key_bits true
                      bad_buffer_size true))
    (PSA_ERROR_BUFFER_TOO_SMALL P) (fun _ => PSA_ERROR_HARDWARE_FAILURE P)
    (fun _ =>
  private_slot <- get_private_key_slot ;;
  ASSERT_SUCCESS_PSA
    (call (p_generate private_slot keypair_type key_bits false
                      (pubkey_size P) true))
    (fun _ =>
  private_slot <- get_private_key_slot ;;
  ASSERT_SUCCESS_PSA
    (call (p_generate private_slot keypair_type key_bits true
                      (pubkey_size P) false))
    (fun _ =>
  private_slot <- get_private_key_slot ;;
  ASSERT_SUCCESS_PSA
    (call (p_generate private_slot keypair_type key_bits true
                      (pubkey_size P) true))
    (fun pubkey =>
  public_slot <- get_public_key_slot ;;
  ASSERT_SUCCESS_PSA
    (call (p_import public_slot pubkey (Z.of_nat (List.length pubkey))))
    (fun _ =>
  public_slot <- get_public_key_slot ;;
  ASSERT_STATUS_PSA
    (call (p_import public_slot pubkey 0))
    (PSA_ERROR_INVALID_ARGUMENT P) (fun _ => PSA_ERROR_HARDWARE_FAILURE P)
    (fun _ =>
  printf "test_generate_import succesful!\n" [] ;;;
  ret PSA_SUCCESS))))))))).

Definition test_export_import : M W Z :=
  private_slot <- get_private_key_slot ;;
  ASSERT_SUCCESS_PSA (call (p_export private_slot)) (fun pubkey =>
  public_slot <- get_public_key_slot ;;
  ASSERT_SUCCESS_PSA
    (call (p_import public_slot pubkey (Z.of_nat (List.length pubkey))))
    (fun _ =>
  printf "test_export_import succesful!\n" [] ;;;
  ret PSA_SUCCESS)).

Definition test_sign_verify : M W Z :=
  let hash := repeat 0 (hash_size P) in
  private_slot <- get_private_key_slot ;;
  ASSERT_SUCCESS_PSA
    (call (p_generate private_slot keypair_type key_bits true
                      (pubkey_size P) true))
    (fun pubkey =>
  public_slot <- get_public_key_slot ;;
  ASSERT_SUCCESS_PSA
    (call (p_import public_slot pubkey (Z.of_nat (List.length pubkey))))
    (fun _ =>
  private_slot <- get_private_key_slot ;;
  ASSERT_SUCCESS_PSA (call (p_sign private_slot hash)) (fun signature =>
  public_slot <- get_public_key_slot ;;
  ASSERT_SUCCESS_PSA (call (p_verify public_slot hash signature)) (fun _ =>
  printf "test_sign_verify succesful!\n" [] ;;;
  ret PSA_SUCCESS)))).

Definition test_hash_sha256 : M W Z :=
  let hash_input1 := [97; 98; 99] in
  let sha256_expected_hash1 :=
    [0xBA; 0x78; 0x16; 0xBF; 0x8F; 0x01; 0xCF; 0xEA;
     0x41; 0x41; 0x40; 0xDE; 0x5D; 0xAE; 0x22; 0x23;
     0xB0; 0x03; 0x61; 0xA3; 0x96; 0x17; 0x7A; 0x9C;
     0xB4; 0x10; 0xFF; 0x61; 0xF2; 0x00; 0x15; 0xAD] in
  let hash_input2 := [] in
  let sha256_expected_hash2 :=
    [0xe3; 0xb0; 0xc4; 0x42; 0x98; 0xfc; 0x1c; 0x14;
     0x9a; 0xfb; 0xf4; 0xc8; 0x99; 0x6f; 0xb9; 0x24;
     0x27; 0xae; 0x41; 0xe4; 0x64; 0x9b; 0x93; 0x4c;
     0xa4; 0x95; 0x99; 0x1b; 0x78; 0x52; 0xb8; 0x55] in
  ASSERT_SUCCESS_PSA
    (value (atecc608a_hash_sha256 hash_input1 sha256_expected_hash1)) (fun _ =>
  ASSERT_SUCCESS_PSA
    (value (atecc608a_hash_sha256 hash_input2 sha256_expected_hash2)) (fun _ =>
  printf "test_hash_sha256 succesful!\n" [] ;;;
  ret PSA_SUCCESS)).

Definition run_tests : M W Z :=
  printf "Running tests...\n" [] ;;;
  ASSERT_SUCCESS_PSA (value test_hash_sha256) (fun _ =>
  ASSERT_SUCCESS_PSA (call (atecc608a_check_zone_locked LOCK_ZONE_CONFIG))
    (fun _ =>
  ASSERT_SUCCESS_PSA (value test_generate_import) (fun _ =>
  ASSERT_SUCCESS_PSA (value test_export_import) (fun _ =>
  ASSERT_SUCCESS_PSA (value test_sign_verify) (fun _ =>
  ASSERT_SUCCESS_PSA (value test_psa_import_verify) (fun _ =>
  ASSERT_SUCCESS_PSA (call (atecc608a_check_zone_locked LOCK_ZONE_DATA))
    (fun _ =>
  ASSERT_SUCCESS_PSA (value (test_write_read_slot 8)) (fun _ =>
  ret PSA_SUCCESS)))))))).

Definition print_device_info : M W unit :=
  atecc608a_print_serial_number ;;;
  atecc608a_print_config_zone ;;;
  atecc608a_print_locked_zones ;;;
  private_slot <- get_private_key_slot ;;
  public_slot <- get_public_key_slot ;;
  printf "\nPrivate key slot in use: %lu, public: %lu\n"
         [private_slot; public_slot].

(** [prompt_confirmation] (main.c lines 450 to 460).  [confirmation[0]] is
    the one character [scanf] stored. *)
Definition prompt_confirmation (message : string) : M W bool :=
  printf message [] ;;;
  confirmation <- scanf 1 ;;
  printf "\n" [] ;;;
  match confirmation with
  | [] => undefined
  | c :: _ =>
      if Ascii.eqb c "y" || Ascii.eqb c "Y" then ret true else ret false
  end.

(** [(uint16_t) atoi(p + 1)] for a pointer [p] that [strchr] or [strrchr]
    returned: undefined for the null pointer. *)
Definition uint16_atoi_after (p : option (list ascii)) : M W Z :=
  match p with
  | None => undefined
  | Some s =>
      match atoi (tl s) with
      | None => undefined
      | Some v => ret (to_uint16 v)
      end
  end.

Definition is_null {A} (p : option A) : bool :=
  match p with None => true | Some _ => false end.

(** The [generate_private] branch (main.c lines 480 to 502). *)
Definition do_generate_private (len : Z) (arg : option (list ascii))
  : M W bool :=
  slot <-
    (if (strlen (str "generate_private=0") - 1 <? len) && negb (is_null arg)
     then uint16_atoi_after arg
     else ret 0) ;;
  if 15 <? slot then
    (printf "Invalid slot %u provided for generate_private command.\n" [slot] ;;;
     ret false)
  else
    (printf "Generating a private key in slot %u... " [slot] ;;;
     r <- call (p_generate slot keypair_type key_bits false 0 false) ;;
     if negb (status r =? PSA_SUCCESS) then
       (printf "Failed! Error %ld.\n" [status r] ;;; ret false)
     else
       (printf "Done.\n" [] ;;; ret false)).

(** The [generate_public] branch once both slots are read (main.c lines
    518 to 545). *)
Definition export_import (slot_private slot_public : Z) : M W bool :=
  if (15 <? slot_private) || (15 <? slot_public) then
    (printf "Invalid slots provided for generate_public command: %u, %u\n"
            [slot_private; slot_public] ;;;
     ret false)
  else
    (printf "Exporting a public key from private key in slot %u... "
            [slot_private] ;;;
     r <- call (p_export slot_private) ;;
     if negb (status r =? PSA_SUCCESS) then
       (printf "Failed! Error %ld.\n" [status r] ;;; ret false)
     else
       (printf "Done.\n" [] ;;;
        printf "Importing public key to slot %u... " [slot_public] ;;;
        r' <- call (p_import slot_public (data r)
                             (Z.of_nat (List.length (data r)))) ;;
        if negb (status r' =? PSA_SUCCESS) then
          (printf "Failed! Error %ld.\n" [status r'] ;;; ret false)
        else
          (printf "Done.\n" [] ;;; ret false))).

(** The [generate_public] branch (main.c lines 503 to 545). *)
Definition do_generate_public (command : list ascii) (len : Z)
    (arg : option (list ascii)) : M W bool :=
  if len <=? strlen (str "generate_public=0_9") - 1 then
    (printf "Please specify both slots for public key generation.\n" [] ;;;
     ret false)
  else
    (slot_private <- uint16_atoi_after arg ;;
     slot_public <- uint16_atoi_after (strrchr command "_") ;;
     export_import slot_private slot_public).

(** The [write_lock_config] branch (main.c lines 546 to 558). *)
Definition do_write_lock_config : M W bool :=
  confirmed <- prompt_confirmation WARNING_CONFIG ;;
  if negb confirmed then ret false
  else
    (printf "Writing configuration and locking the config zone... " [] ;;;
     r <- call atecc608a_write_lock_config ;;
     if negb (status r =? PSA_SUCCESS) then
       (printf "Failed! Error %ld.\n" [status r] ;;; ret false)
     else
       (printf "Done.\n" [] ;;; ret false)).

(** The [lock_data] branch (main.c lines 559 to 570). *)
Definition do_lock_data : M W bool :=
  confirmed <- prompt_confirmation WARNING_DATA ;;
  if negb confirmed then ret false
  else
    (printf "Locking the data/OTP zone... " [] ;;;
     r <- call atecc608a_lock_data_zone ;;
     if negb (status r =? PSA_SUCCESS) then
       (printf "Failed! Error %ld.\n" [status r] ;;; ret false)
     else
       (printf "Done.\n" [] ;;; ret false)).

(** The [private_slot] branch (main.c lines 571 to 587). *)
Definition do_private_slot (len : Z) (arg : option (list ascii)) : M W bool :=
  if len <=? strlen (str "private_slot=0") - 1 then
    (printf "Please specify a slot that will be used as a private key in tests.\n"
            [] ;;;
     ret false)
  else
    (slot <- uint16_atoi_after arg ;;
     if 15 <? slot then
       (printf "Invalid slot %u provided as a private key slot.\n" [slot] ;;;
        ret false)
     else
       (set_private_key_slot slot ;;;
        printf "The private key slot in use is now %u.\n" [slot] ;;;
        ret false)).

(** The [public_slot] branch (main.c lines 588 to 604). *)
Definition do_public_slot (len : Z) (arg : option (list ascii)) : M W bool :=
  if len <=? strlen (str "public_slot=9") - 1 then
    (printf "Please specify a slot that will be used as a public key in tests.\n"
            [] ;;;
     ret false)
  else
    (slot <- uint16_atoi_after arg ;;
     if 15 <? slot then
       (printf "Invalid slot %u provided as a public key slot.\n" [slot] ;;;
        ret false)
     else
       (set_public_key_slot slot ;;;
        printf "The public key slot in use is now %u.\n" [slot] ;;;
        ret false)).

(** The body of [interactive_loop] once [command] is read. *)
Definition run_command (command : list ascii) : M W bool :=
  let len := strlen command in
  let arg := strchr command "=" in
  match dispatch command with
  | CmdInfo => print_device_info ;;; ret false
  | CmdExit => ret true
  | CmdTest => run_tests ;;; ret false
  | CmdGeneratePrivate => do_generate_private len arg
  | CmdGeneratePublic => do_generate_public command len arg
  | CmdWriteLockConfig => do_write_lock_config
  | CmdLockData => do_lock_data
  | CmdPrivateSlot => do_private_slot len arg
  | CmdPublicSlot => do_public_slot len arg
  | CmdUnrecognized =>
      emit (PrintfS "Unrecognized command - \'%s\'.\n" command) ;;;
      ret false
  end.

(** [interactive_loop] (main.c lines 462 to 609). *)
Definition interactive_loop : M W bool :=
  printf USAGE [] ;;;
  buf <- scanf 79 ;;
  run_command (c_str buf).

(** [while (!exit_application) exit_application = interactive_loop();]
    Every iteration that returns has taken a character from the input, so
    with [fuel] above the length of the input the [O] case is never
    reached. *)
Fixpoint interactive_loops (fuel : nat) : M W unit :=
  match fuel with
  | O => fun _ => NoInput
  | S fuel' =>
      exit_application <- interactive_loop ;;
      if exit_application then ret tt else interactive_loops fuel'
  end.

(** [main] (main.c lines 611 to 627). *)
Definition main : M W Z :=
  print_device_info ;;;
  status <-
    ASSERT_SUCCESS_PSA (call psa_crypto_init) (fun _ =>
    run_tests ;;;
    (fun s => interactive_loops (S (List.length (stdin s))) s) ;;;
    ret PSA_SUCCESS) ;;
  printf "Exiting application.\n" [] ;;;
  ret status.

End Interpreter.

(** ** Vocabulary of the statements *)

(** The external calls of a trace, in order. *)
Fixpoint calls_of (tr : list event) : list ext_call :=
  match tr with
  | [] => []
  | Call c :: tr' => c :: calls_of tr'
  | _ :: tr' => calls_of tr'
  end.

(** An integer as the user types it. *)
Definition decimal (n : Z) : list ascii :=
  str (NilZero.string_of_int (Z.to_int n)).

(** The line [keyword=N]. *)
Definition line1 (keyword : string) (n : Z) : list ascii :=
  str keyword ++ "="%char :: decimal n.

(** The line [generate_public=A_B]. *)
Definition line2 (a b : Z) : list ascii :=
  str "generate_public" ++ "="%char :: decimal a ++ "_"%char :: decimal b.

(** The globals as main.c initializes them (lines 80 and 81). *)
Definition initial_state {W} (input : list ascii) (w : W) : state W :=
  mkState 0 9 input [] w.

Definition slots_valid {W} (s : state W) : Prop :=
  0 <= atecc608a_private_key_slot s <= 15 /\
  0 <= atecc608a_public_key_slot s <= 15.

(** [s'] is the state after some number of iterations of
    [interactive_loop] from [s]. *)
Inductive iterations {W} (P : platform W) : state W -> state W -> Prop :=
| iterations_nil : forall s, iterations P s s
| iterations_step : forall s b s' s'',
    interactive_loop P s = Ret b s' ->
    iterations P s' s'' ->
    iterations P s s''.

(** A list that holds no NUL character. *)
Definition nul_free (s : list ascii) : Prop := Forall (fun c => code c <> 0) s.

(** [p] is a prefix of [s]. *)
Definition starts_with (p s : list ascii) : Prop :=
  firstn (List.length p) s = p.

Definition add_trace {W} (s : state W) (es : list event) : state W :=
  mkState (atecc608a_private_key_slot s) (atecc608a_public_key_slot s)
          (stdin s) (trace s ++ es) (world s).

(** [m] always returns, and leaves the session slots and the input as
    they were: it only prints and calls the platform. *)
Definition output_only {W A} (m : M W A) : Prop :=
  forall s, exists a s',
    m s = Ret a s' /\
    atecc608a_private_key_slot s' = atecc608a_private_key_slot s /\
    atecc608a_public_key_slot s' = atecc608a_public_key_slot s /\
    stdin s' = stdin s.

(** What a returning command can have done to the session: the slots stay
    valid, a slot changes only in its own branch, no input is given back,
    and only [exit] answers true. *)
Definition session_step {W} (command : list ascii) (s : state W) (b : bool)
    (s' : state W) : Prop :=
  (slots_valid s -> slots_valid s') /\
  (atecc608a_private_key_slot s' <> atecc608a_private_key_slot s ->
   dispatch command = CmdPrivateSlot) /\
  (atecc608a_public_key_slot s' <> atecc608a_public_key_slot s ->
   dispatch command = CmdPublicSlot) /\
  (List.length (stdin s') <= List.length (stdin s))%nat /\
  (b = true <-> dispatch command = CmdExit).

(** An external call that names a key slot, with a slot from 0 to 15. *)
Definition slot_in_range (c : ext_call) : Prop :=
  match c with
  | p_generate slot _ _ _ _ _ => 0 <= slot <= 15
  | p_export slot => 0 <= slot <= 15
  | p_import slot _ _ => 0 <= slot <= 15
  | _ => False
  end.

(** The external calls of the built-in tests, for session slots [p]
    (private) and [q] (public): a key operation names the slot the test
    was written for (or the invalid slot 16 in a generate), a clear-text
    write or read names slot 8, and the zones are never locked. *)
Definition tests_call (p q : Z) (c : ext_call) : Prop :=
  match c with
  | p_generate slot _ _ _ _ _ => slot = p \/ slot = 16
  | p_export slot => slot = p
  | p_sign slot _ => slot = p
  | p_import slot _ _ => slot = q
  | p_verify slot _ _ => slot = q
  | atecc608a_write slot _ _ => slot = 8
  | atecc608a_read slot _ _ => slot = 8
  | atecc608a_write_lock_config => False
  | atecc608a_lock_data_zone => False
  | _ => True
  end.

(** The external calls that only read the device or print. *)
Definition read_only_call (c : ext_call) : Prop :=
  match c with
  | atecc608a_get_serial_number => True
  | atcab_printbin_sp _ => True
  | atecc608a_init => True
  | atecc608a_deinit => True
  | atcab_read_config_zone => True
  | atcab_printbin_label _ => True
  | atcab_is_locked _ => True
  | atcab_is_slot_locked _ => True
  | _ => False
  end.

(** From a state whose session slots are [p] and [q], [m] returns, keeps
    the slots and the input, and every external call it makes satisfies
    [Q]. *)
Definition calls_within {W A} (p q : Z) (Q : ext_call -> Prop) (m : M W A)
  : Prop :=
  forall s,
    atecc608a_private_key_slot s = p ->
    atecc608a_public_key_slot s = q ->
    exists a s' cs,
      m s = Ret a s' /\
      atecc608a_private_key_slot s' = p /\
      atecc608a_public_key_slot s' = q /\
      stdin s' = stdin s /\
      calls_of (trace s') = calls_of (trace s) ++ cs /\
      Forall Q cs.

(** An external call other than opening or closing the device. *)
Definition inside_session (c : ext_call) : Prop :=
  match c with
  | atecc608a_init => False
  | atecc608a_deinit => False
  | _ => True
  end.



(** The text that follows a number does not go on with a digit. *)
Definition not_a_digit_next (rest : list ascii) : Prop :=
  match rest with
  | [] => True
  | c :: _ => isdigit c = false
  end.

(** An external call that does not lock a zone. *)
Definition not_locking (c : ext_call) : Prop :=
  c <> atecc608a_write_lock_config /\ c <> atecc608a_lock_data_zone.

(** The response starts, after white space, with [y] or [Y]. *)
Definition confirmed (response : list ascii) : Prop :=
  exists ws c rest,
    response = ws ++ c :: rest /\
    forallb isspace ws = true /\
    (c = "y"%char \/ c = "Y"%char).




(** A device whose hash command answers 32 bytes of 1. *)
Definition digest_of_ones (c : ext_call) : reply :=
  match c with
  | atcab_hw_sha2_256 _ => {| status := ATCA_SUCCESS; data := repeat 1 32 |}
  | _ => {| status := PSA_SUCCESS; data := [] |}
  end.

(** Platforms for closed examples: a stateless driver answering by [f],
    with the error codes of the PSA headers of the time. *)
Definition stateless (f : ext_call -> reply) : platform unit :=
  {| env := fun c w => (f c, w);
     PSA_ERROR_HARDWARE_FAILURE := -147;
     PSA_ERROR_INVALID_ARGUMENT := -135;
     PSA_ERROR_NOT_SUPPORTED := -134;
     PSA_ERROR_BUFFER_TOO_SMALL := -138;
     atecc608a_to_psa_error := fun _ => -147;
     pubkey_size := 65;
     hash_size := 32 |}.

Definition all_succeed (c : ext_call) : reply :=
  {| status := PSA_SUCCESS; data := [] |}.

(** A device whose slots hold no key: [p_export] fails. *)
Definition export_fails (c : ext_call) : reply :=
  match c with
  | p_export _ => {| status := -136; data := [] |}
  | _ => {| status := PSA_SUCCESS; data := [] |}
  end.

(** A framework that fails to initialize. *)
Definition init_fails (c : ext_call) : reply :=
  match c with
  | psa_crypto_init => {| status := -141; data := [] |}
  | _ => {| status := PSA_SUCCESS; data := [] |}
  end.

(** * Facts *)

(** ** C strings *)

Lemma code_inj : forall a b, code a = code b -> a = b.
Proof.
  unfold code; intros a b H.
  apply N2Z.inj in H.
  rewrite <- (ascii_N_embedding a), <- (ascii_N_embedding b).
  now rewrite H.
Qed.

Lemma code_range : forall c, 0 <= code c < 256.
Proof.
  intro c; unfold code.
  pose proof (N_ascii_bounded c) as H.
  lia.
Qed.

Lemma c_str_nul_free : forall buf, nul_free (c_str buf).
Proof.
  induction buf as [|c buf IH]; simpl.
  - constructor.
  - destruct (code c =? 0) eqn:E.
    + constructor.
    + constructor; [now apply Z.eqb_neq | exact IH].
Qed.

Lemma c_str_id : forall s, nul_free s -> c_str s = s.
Proof.
  induction 1 as [|c s Hc _ IH]; simpl; [reflexivity|].
  apply Z.eqb_neq in Hc; rewrite Hc; now rewrite IH.
Qed.

Lemma strcmp_refl : forall s, strcmp s s = 0.
Proof.
  induction s as [|c s IH]; simpl; [reflexivity|].
  now rewrite Z.eqb_refl.
Qed.

Lemma strcmp_eq : forall s t,
  nul_free s -> nul_free t -> (strcmp s t = 0 <-> s = t).
Proof.
  intros s t Hs; revert t.
  induction Hs as [|a s Ha Hs IH]; intros t Ht; destruct Ht as [|b t Hb Ht];
    simpl; split; intro H; try reflexivity; try discriminate; try lia.
  - destruct (code a =? code b) eqn:E.
    + apply Z.eqb_eq, code_inj in E; subst b.
      f_equal; now apply IH.
    + apply Z.eqb_neq in E; lia.
  - inversion H; subst; rewrite Z.eqb_refl; apply strcmp_refl.
Qed.

Lemma strncmp_eq : forall n s t,
  nul_free s -> nul_free t -> (strncmp s t n = 0 <-> firstn n s = firstn n t).
Proof.
  induction n as [|n IH]; intros s t Hs Ht.
  - simpl; split; reflexivity.
  - destruct Hs as [|a s Ha Hs]; destruct Ht as [|b t Hb Ht];
      simpl; split; intro H; try reflexivity; try discriminate; try lia.
    + destruct (code a =? code b) eqn:E.
      * apply Z.eqb_eq, code_inj in E; subst b.
        f_equal; now apply IH.
      * apply Z.eqb_neq in E; lia.
    + inversion H; subst; rewrite Z.eqb_refl; now apply IH.
Qed.

(** A prefix test against a literal at least [n] characters long. *)
Lemma strncmp_starts_with : forall n s t,
  nul_free s -> nul_free t -> (n <= List.length t)%nat ->
  (strncmp s t n = 0 <-> starts_with (firstn n t) s).
Proof.
  intros n s t Hs Ht Hn.
  unfold starts_with.
  rewrite length_firstn, Nat.min_l by exact Hn.
  now apply strncmp_eq.
Qed.

Lemma starts_with_shorter : forall p q s,
  starts_with p s -> starts_with q s -> (List.length q <= List.length p)%nat ->
  firstn (List.length q) p = q.
Proof.
  unfold starts_with; intros p q s Hp Hq Hle.
  rewrite <- Hp, firstn_firstn, Nat.min_l by exact Hle.
  exact Hq.
Qed.

(** [strchr] splits at the first occurrence, [strrchr] at the last. *)
Lemma strchr_first : forall ch pre suf,
  ~ In ch pre -> strchr (pre ++ ch :: suf) ch = Some (ch :: suf).
Proof.
  induction pre as [|c pre IH]; intros suf Hin; simpl.
  - now rewrite Ascii.eqb_refl.
  - destruct (Ascii.eqb c ch) eqn:E.
    + apply Ascii.eqb_eq in E; subst; exfalso; apply Hin; now left.
    + apply IH; intro; apply Hin; now right.
Qed.

Lemma strchr_none : forall ch s, ~ In ch s -> strchr s ch = None.
Proof.
  induction s as [|c s IH]; intro Hin; simpl; [reflexivity|].
  destruct (Ascii.eqb c ch) eqn:E.
  - apply Ascii.eqb_eq in E; subst; exfalso; apply Hin; now left.
  - apply IH; intro; apply Hin; now right.
Qed.

Lemma strrchr_none : forall ch s, ~ In ch s -> strrchr s ch = None.
Proof.
  induction s as [|c s IH]; intro Hin; simpl; [reflexivity|].
  rewrite IH by (intro; apply Hin; now right).
  destruct (Ascii.eqb c ch) eqn:E; [|reflexivity].
  apply Ascii.eqb_eq in E; subst; exfalso; apply Hin; now left.
Qed.

Lemma strrchr_last : forall ch pre suf,
  ~ In ch suf -> strrchr (pre ++ ch :: suf) ch = Some (ch :: suf).
Proof.
  induction pre as [|c pre IH]; intros suf Hin; simpl.
  - rewrite strrchr_none by exact Hin. now rewrite Ascii.eqb_refl.
  - now rewrite IH.
Qed.

Lemma to_uint16_range : forall x, 0 <= to_uint16 x < 65536.
Proof. intro x; unfold to_uint16; apply Z.mod_pos_bound; lia. Qed.

(** ** Reading from the input *)

Lemma skip_space_spaces : forall ws c rest,
  forallb isspace ws = true -> isspace c = false ->
  skip_space (ws ++ c :: rest) = c :: rest.
Proof.
  induction ws as [|w ws IH]; intros c rest Hws Hc; simpl.
  - now rewrite Hc.
  - simpl in Hws; apply andb_prop in Hws as [Hw Hws].
    rewrite Hw; now apply IH.
Qed.

Lemma skip_space_length : forall s,
  (List.length (skip_space s) <= List.length s)%nat.
Proof.
  induction s as [|c s IH]; simpl; [lia|].
  destruct (isspace c); simpl; lia.
Qed.

Lemma skip_space_head : forall s c s',
  skip_space s = c :: s' -> isspace c = false.
Proof.
  induction s as [|a s IH]; simpl; intros c s' H; [discriminate|].
  destruct (isspace a) eqn:E; [eauto|].
  now inversion H; subst.
Qed.

Lemma read_token_length : forall n s tok rest,
  read_token n s = (tok, rest) ->
  (List.length tok + List.length rest = List.length s)%nat.
Proof.
  induction n as [|n IH]; intros s tok rest H; simpl in H.
  - inversion H; subst; reflexivity.
  - destruct s as [|c s]; [inversion H; subst; reflexivity|].
    destruct (isspace c); [inversion H; subst; reflexivity|].
    destruct (read_token n s) as [t r] eqn:E.
    inversion H; subst; simpl. apply IH in E; lia.
Qed.

(** A successful scan stores at least one character and takes it from the
    input. *)
Lemma scan_s_some : forall n input buf rest,
  scan_s (S n) input = Some (buf, rest) ->
  (exists c buf', buf = c :: buf' /\ isspace c = false) /\
  (List.length rest < List.length input)%nat.
Proof.
  unfold scan_s; intros n input buf rest H.
  pose proof (skip_space_length input) as Hlen.
  destruct (skip_space input) as [|c s] eqn:E; [discriminate|].
  pose proof (skip_space_head _ _ _ E) as Hc.
  assert (H1 : read_token (S n) (c :: s) = (buf, rest)) by congruence.
  pose proof (read_token_length _ _ _ _ H1) as Hl.
  simpl in H1; rewrite Hc in H1.
  destruct (read_token n s) as [t r]; inversion H1; subst.
  split; [eauto|]. simpl in *; lia.
Qed.

(** The confirmation prompt reads the first character that is not white
    space. *)
Lemma scan_s_1 : forall ws c rest,
  forallb isspace ws = true -> isspace c = false ->
  scan_s 1 (ws ++ c :: rest) = Some ([c], rest).
Proof.
  intros ws c rest Hws Hc; unfold scan_s.
  rewrite skip_space_spaces by assumption.
  simpl; now rewrite Hc.
Qed.

(** ** Computations that only print and call the platform *)

Section OutputOnly.

Context {W : Type} (P : platform W).

Lemma output_only_ret : forall A (a : A), output_only (@ret W A a).
Proof. intros A a s; exists a, s; repeat split. Qed.

Lemma output_only_bind : forall A B (m : M W A) (k : A -> M W B),
  output_only m -> (forall a, output_only (k a)) -> output_only (bind m k).
Proof.
  intros A B m k Hm Hk s.
  destruct (Hm s) as (a & s1 & E1 & Hp1 & Hq1 & Hi1).
  destruct (Hk a s1) as (b & s2 & E2 & Hp2 & Hq2 & Hi2).
  exists b, s2; unfold bind; rewrite E1, E2.
  repeat split; congruence.
Qed.

Lemma output_only_emit : forall e, output_only (@emit W e).
Proof. intros e s; eexists; eexists; repeat split. Qed.

Lemma output_only_printf : forall f args, output_only (@printf W f args).
Proof. intros; apply output_only_emit. Qed.

Lemma output_only_call : forall c, output_only (call P c).
Proof.
  intros c s; unfold call.
  destruct (env P c (world s)) as [r w].
  eexists; eexists; repeat split.
Qed.

Lemma output_only_get_private : output_only (@get_private_key_slot W).
Proof. intro s; eexists; eexists; repeat split. Qed.

Lemma output_only_get_public : output_only (@get_public_key_slot W).
Proof. intro s; eexists; eexists; repeat split. Qed.

Lemma output_only_value : forall m, output_only m -> output_only (value (W:=W) m).
Proof.
  intros m Hm; unfold value.
  apply output_only_bind; [exact Hm | intro; apply output_only_ret].
Qed.

Lemma output_only_ASSERT_STATUS_PSA : forall e expected err rest,
  output_only e -> (forall d, output_only (rest d)) ->
  output_only (ASSERT_STATUS_PSA (W:=W) e expected err rest).
Proof.
  intros e expected err rest He Hr; unfold ASSERT_STATUS_PSA.
  apply output_only_bind; [exact He|]; intro r.
  destruct (negb (status r =? expected)); [|apply Hr].
  apply output_only_bind; [apply output_only_printf | intro; apply output_only_ret].
Qed.

Lemma output_only_ASSERT_SUCCESS_PSA : forall e rest,
  output_only e -> (forall d, output_only (rest d)) ->
  output_only (ASSERT_SUCCESS_PSA (W:=W) e rest).
Proof. intros; now apply output_only_ASSERT_STATUS_PSA. Qed.

Lemma output_only_ASSERT_STATUS : forall e expected err rest,
  output_only e -> (forall d, output_only (rest d)) ->
  output_only (ASSERT_STATUS (W:=W) e expected err rest).
Proof.
  intros e expected err rest He Hr; unfold ASSERT_STATUS.
  apply output_only_bind; [exact He|]; intro r.
  destruct (negb (status r =? expected)); [|apply Hr].
  apply output_only_bind; [apply output_only_printf | intro; apply output_only_ret].
Qed.

Lemma output_only_ASSERT_SUCCESS : forall e rest,
  output_only e -> (forall d, output_only (rest d)) ->
  output_only (ASSERT_SUCCESS P e rest).
Proof. intros; now apply output_only_ASSERT_STATUS. Qed.

Ltac output_only_step :=
  lazymatch goal with
  | |- output_only (ret _) => apply output_only_ret
  | |- output_only (printf _ _) => apply output_only_printf
  | |- output_only (emit _) => apply output_only_emit
  | |- output_only (call _ _) => apply output_only_call
  | |- output_only get_private_key_slot => apply output_only_get_private
  | |- output_only get_public_key_slot => apply output_only_get_public
  | |- output_only (value _) => apply output_only_value
  | |- output_only (ASSERT_SUCCESS_PSA _ _) =>
      apply output_only_ASSERT_SUCCESS_PSA; [|intro]
  | |- output_only (ASSERT_SUCCESS _ _ _) =>
      apply output_only_ASSERT_SUCCESS; [|intro]
  | |- output_only (ASSERT_STATUS_PSA _ _ _ _) =>
      apply output_only_ASSERT_STATUS_PSA; [|intro]
  | |- output_only (ASSERT_STATUS _ _ _ _) =>
      apply output_only_ASSERT_STATUS; [|intro]
  | |- output_only (bind _ _) => apply output_only_bind; [|intro]
  end.

Ltac output_only_tac := cbv zeta; repeat output_only_step.

Lemma output_only_atecc608a_hash_sha256 : forall input expected,
  output_only (atecc608a_hash_sha256 P input expected).
Proof. intros; unfold atecc608a_hash_sha256; output_only_tac. Qed.

Lemma output_only_print_slot_locks : forall slots rest,
  output_only rest -> output_only (print_slot_locks P slots rest).
Proof.
  induction slots as [|i slots IH]; intros rest Hr; simpl.
  - exact Hr.
  - output_only_tac. now apply IH.
Qed.

Lemma output_only_print_locked_zones :
  output_only (atecc608a_print_locked_zones P).
Proof.
  unfold atecc608a_print_locked_zones; output_only_tac.
  apply output_only_print_slot_locks; output_only_tac.
Qed.

Lemma output_only_print_device_info : output_only (print_device_info P).
Proof.
  unfold print_device_info, atecc608a_print_serial_number,
    atecc608a_print_config_zone.
  output_only_tac. apply output_only_print_locked_zones.
Qed.

Lemma output_only_run_tests : output_only (run_tests P).
Proof.
  unfold run_tests, test_hash_sha256, test_generate_import,
    test_export_import, test_sign_verify, test_psa_import_verify,
    test_write_read_slot.
  output_only_tac; apply output_only_atecc608a_hash_sha256.
Qed.

End OutputOnly.

(** ** Dispatch *)

Lemma nul_free_check : forall s,
  forallb (fun c => negb (code c =? 0)) s = true -> nul_free s.
Proof.
  induction s as [|c s IH]; simpl; intro H; constructor.
  - apply andb_prop in H as [H _].
    apply negb_true_iff in H. now apply Z.eqb_neq.
  - apply andb_prop in H as [_ H]. now apply IH.
Qed.

Ltac literal := apply nul_free_check; reflexivity.

(** Two keyword tests cannot both hold. *)
Ltac clash H K :=
  solve
    [ rewrite H in K; vm_compute in K; discriminate K
    | rewrite K in H; vm_compute in H; discriminate H
    | let X := fresh in
      pose proof (starts_with_shorter _ _ _ H K) as X;
      vm_compute in X; specialize (X ltac:(repeat constructor));
      discriminate X
    | let X := fresh in
      pose proof (starts_with_shorter _ _ _ K H) as X;
      vm_compute in X; specialize (X ltac:(repeat constructor));
      discriminate X ].

Lemma dispatch_spec : forall command,
  nul_free command ->
  (dispatch command = CmdInfo <-> command = str "info") /\
  (dispatch command = CmdExit <-> command = str "exit") /\
  (dispatch command = CmdTest <-> command = str "test") /\
  (dispatch command = CmdWriteLockConfig <->
     command = str "write_lock_config") /\
  (dispatch command = CmdLockData <-> command = str "lock_data") /\
  (dispatch command = CmdGeneratePrivate <->
     starts_with (str "generate_privat") command) /\
  (dispatch command = CmdGeneratePublic <->
     starts_with (str "generate_publi") command) /\
  (dispatch command = CmdPrivateSlot <->
     starts_with (str "private_slo") command) /\
  (dispatch command = CmdPublicSlot <->
     starts_with (str "public_slo") command).
Proof.
  intros command Hn.
  assert (E1 : strcmp command (str "info") = 0 <-> command = str "info")
    by (apply strcmp_eq; [exact Hn | literal]).
  assert (E2 : strcmp command (str "exit") = 0 <-> command = str "exit")
    by (apply strcmp_eq; [exact Hn | literal]).
  assert (E3 : strcmp command (str "test") = 0 <-> command = str "test")
    by (apply strcmp_eq; [exact Hn | literal]).
  assert (E4 : strncmp command (str "generate_private")
                 (Z.to_nat (strlen (str "generate_private") - 1)) = 0 <->
               starts_with (str "generate_privat") command)
    by (apply (strncmp_starts_with 15 command (str "generate_private"));
        [exact Hn | literal | simpl; lia]).
  assert (E5 : strncmp command (str "generate_public")
                 (Z.to_nat (strlen (str "generate_public") - 1)) = 0 <->
               starts_with (str "generate_publi") command)
    by (apply (strncmp_starts_with 14 command (str "generate_public"));
        [exact Hn | literal | simpl; lia]).
  assert (E6 : strcmp command (str "write_lock_config") = 0 <->
               command = str "write_lock_config")
    by (apply strcmp_eq; [exact Hn | literal]).
  assert (E7 : strcmp command (str "lock_data") = 0 <->
               command = str "lock_data")
    by (apply strcmp_eq; [exact Hn | literal]).
  assert (E8 : strncmp command (str "private_slot")
                 (Z.to_nat (strlen (str "private_slot") - 1)) = 0 <->
               starts_with (str "private_slo") command)
    by (apply (strncmp_starts_with 11 command (str "private_slot"));
        [exact Hn | literal | simpl; lia]).
  assert (E9 : strncmp command (str "public_slot")
                 (Z.to_nat (strlen (str "public_slot") - 1)) = 0 <->
               starts_with (str "public_slo") command)
    by (apply (strncmp_starts_with 10 command (str "public_slot"));
        [exact Hn | literal | simpl; lia]).
  unfold dispatch.
  destruct (strcmp command (str "info") =? 0) eqn:B1;
    [ apply Z.eqb_eq in B1; apply E1 in B1
    | apply Z.eqb_neq in B1; rewrite E1 in B1;
  destruct (strcmp command (str "exit") =? 0) eqn:B2;
    [ apply Z.eqb_eq in B2; apply E2 in B2
    | apply Z.eqb_neq in B2; rewrite E2 in B2;
  destruct (strcmp command (str "test") =? 0) eqn:B3;
    [ apply Z.eqb_eq in B3; apply E3 in B3
    | apply Z.eqb_neq in B3; rewrite E3 in B3;
  destruct (strncmp command (str "generate_private")
              (Z.to_nat (strlen (str "generate_private") - 1)) =? 0) eqn:B4;
    [ apply Z.eqb_eq in B4; apply E4 in B4
    | apply Z.eqb_neq in B4; rewrite E4 in B4;
  destruct (strncmp command (str "generate_public")
              (Z.to_nat (strlen (str "generate_public") - 1)) =? 0) eqn:B5;
    [ apply Z.eqb_eq in B5; apply E5 in B5
    | apply Z.eqb_neq in B5; rewrite E5 in B5;
  destruct (strcmp command (str "write_lock_config") =? 0) eqn:B6;
    [ apply Z.eqb_eq in B6; apply E6 in B6
    | apply Z.eqb_neq in B6; rewrite E6 in B6;
  destruct (strcmp command (str "lock_data") =? 0) eqn:B7;
    [ apply Z.eqb_eq in B7; apply E7 in B7
    | apply Z.eqb_neq in B7; rewrite E7 in B7;
  destruct (strncmp command (str "private_slot")
              (Z.to_nat (strlen (str "private_slot") - 1)) =? 0) eqn:B8;
    [ apply Z.eqb_eq in B8; apply E8 in B8
    | apply Z.eqb_neq in B8; rewrite E8 in B8;
  destruct (strncmp command (str "public_slot")
              (Z.to_nat (strlen (str "public_slot") - 1)) =? 0) eqn:B9;
    [ apply Z.eqb_eq in B9; apply E9 in B9
    | apply Z.eqb_neq in B9; rewrite E9 in B9 ] ] ] ] ] ] ] ] ];
  clear E1 E2 E3 E4 E5 E6 E7 E8 E9 Hn;
  repeat split; intro; 
    try discriminate; try assumption; try reflexivity; try contradiction.
  all: match goal with
       | H : _, K : _ |- _ => clash H K
       end.
Qed.

(** ** The interpreter *)

Lemma calls_of_app : forall t1 t2,
  calls_of (t1 ++ t2) = calls_of t1 ++ calls_of t2.
Proof.
  induction t1 as [|e t1 IH]; intro t2; simpl; [reflexivity|].
  destruct e; simpl; now rewrite IH.
Qed.

Section Claims.

Context {W : Type} (P : platform W).

(** One iteration prints the usage text, reads a word and runs it. *)
Lemma interactive_loop_scan : forall (s : state W) buf rest,
  scan_s 79 (stdin s) = Some (buf, rest) ->
  interactive_loop P s =
  run_command P (c_str buf)
    (mkState (atecc608a_private_key_slot s) (atecc608a_public_key_slot s) rest
             (trace s ++ [Printf USAGE []]) (world s)).
Proof.
  intros s buf rest H.
  unfold interactive_loop, bind, printf, emit, scanf; simpl.
  now rewrite H.
Qed.

Lemma interactive_loop_no_input : forall s : state W,
  scan_s 79 (stdin s) = None -> interactive_loop P s = NoInput.
Proof.
  intros s H.
  unfold interactive_loop, bind, printf, emit, scanf; simpl.
  now rewrite H.
Qed.

(** The prompt prints the message, reads the first character that is not
    white space, prints a newline and compares. *)
Lemma prompt_confirmation_reads :
  forall message (s : state W) ws c rest,
    forallb isspace ws = true ->
    isspace c = false ->
    stdin s = ws ++ c :: rest ->
    prompt_confirmation message s =
    Ret (Ascii.eqb c "y" || Ascii.eqb c "Y")
        (mkState (atecc608a_private_key_slot s) (atecc608a_public_key_slot s)
                 rest
                 (trace s ++ [Printf message []; Printf "\n" []])
                 (world s)).
Proof.
  intros message s ws c rest Hws Hc Hin.
  unfold prompt_confirmation, bind, printf, emit, scanf; simpl.
  rewrite Hin, (scan_s_1 ws c rest Hws Hc); simpl.
  rewrite <- app_assoc; simpl.
  destruct (Ascii.eqb c "y" || Ascii.eqb c "Y"); reflexivity.
Qed.

(** C10: [prompt_confirmation] answers true exactly when the first character
    of the response that is not white space is [y] or [Y]; it consumes the
    response up to and including that character. *)
Theorem prompt_confirmation_yes_iff :
  forall message (s : state W) ws c rest,
    forallb isspace ws = true ->
    isspace c = false ->
    stdin s = ws ++ c :: rest ->
    exists answer,
      prompt_confirmation message s =
      Ret answer
          (mkState (atecc608a_private_key_slot s)
                   (atecc608a_public_key_slot s) rest
                   (trace s ++ [Printf message []; Printf "\n" []])
                   (world s)) /\
      (answer = true <-> c = "y"%char \/ c = "Y"%char).
Proof.
  intros message s ws c rest Hws Hc Hin.
  exists (Ascii.eqb c "y" || Ascii.eqb c "Y"); split.
  - now apply (prompt_confirmation_reads message s ws).
  - rewrite orb_true_iff, !Ascii.eqb_eq. reflexivity.
Qed.

(** C3: when the response to the confirmation prompt of
    [write_lock_config] or [lock_data] does not start with [y] or [Y], the
    iteration returns false having printed the usage text, the warning and
    a newline: no external call is made, and the session slots and the
    platform are as before. *)
Theorem declined_confirmation_no_effect :
  forall (s : state W) buf input ws c rest,
    scan_s 79 (stdin s) = Some (buf, input) ->
    c_str buf = str "write_lock_config" \/ c_str buf = str "lock_data" ->
    input = ws ++ c :: rest ->
    forallb isspace ws = true ->
    isspace c = false ->
    c <> "y"%char -> c <> "Y"%char ->
    exists warning s',
      interactive_loop P s = Ret false s' /\
      s' = mkState (atecc608a_private_key_slot s) (atecc608a_public_key_slot s) rest
                   (trace s ++ [Printf USAGE []; Printf warning [];
                                Printf "\n" []])
                   (world s) /\
      calls_of (trace s') = calls_of (trace s).
Proof.
  intros s buf input ws c rest Hscan Hcmd Hin Hws Hc Hy HY.
  rewrite (interactive_loop_scan s buf input Hscan).
  set (s1 := mkState _ _ input _ _).
  assert (Hdecl : forall message,
            prompt_confirmation message s1 =
            Ret false
                (mkState (atecc608a_private_key_slot s) (atecc608a_public_key_slot s) rest
                         (trace s ++ [Printf USAGE []; Printf message [];
                                      Printf "\n" []])
                         (world s))).
  { intro message.
    rewrite (prompt_confirmation_reads message s1 ws c rest Hws Hc Hin).
    apply Ascii.eqb_neq in Hy, HY; rewrite Hy, HY.
    subst s1; simpl. now rewrite <- app_assoc. }
  destruct Hcmd as [E | E]; rewrite E.
  - exists WARNING_CONFIG; eexists; split; [|split; [reflexivity|]].
    + unfold run_command; simpl.
      unfold do_write_lock_config, bind. now rewrite Hdecl.
    + simpl. rewrite calls_of_app; simpl. apply app_nil_r.
  - exists WARNING_DATA; eexists; split; [|split; [reflexivity|]].
    + unfold run_command; simpl.
      unfold do_lock_data, bind. now rewrite Hdecl.
    + simpl. rewrite calls_of_app; simpl. apply app_nil_r.
Qed.

Ltac run_inv H :=
  repeat
    match type of H with
    | Ret _ _ = Ret _ _ => inversion H; subst; clear H
    | NoInput = Ret _ _ => discriminate H
    | Undefined = Ret _ _ => discriminate H
    | context [match ?x with _ => _ end] =>
        lazymatch x with
        | context [match _ with _ => _ end] => fail
        | _ => destruct x eqn:?; simpl in H
        end
    end.

Lemma prompt_confirmation_session :
  forall message (s : state W) answer s',
    prompt_confirmation message s = Ret answer s' ->
    atecc608a_private_key_slot s' = atecc608a_private_key_slot s /\
    atecc608a_public_key_slot s' = atecc608a_public_key_slot s /\
    world s' = world s /\
    calls_of (trace s') = calls_of (trace s) /\
    (List.length (stdin s') < List.length (stdin s))%nat.
Proof.
  intros message s answer s' H.
  unfold prompt_confirmation, bind, printf, emit, scanf, undefined, ret in H;
    simpl in H.
  destruct (scan_s 1 (stdin s)) as [[buf rest]|] eqn:E; [|discriminate].
  apply scan_s_some in E as [_ Hlen].
  simpl in H.
  assert (Hc : forall t : list event,
             calls_of ((t ++ [Printf message []]) ++ [Printf "\n" []]) =
             calls_of t).
  { intro t; rewrite !calls_of_app; simpl; now rewrite !app_nil_r. }
  run_inv H; simpl; auto.
Qed.

Lemma uint16_atoi_after_ret : forall p (s : state W) v s',
  uint16_atoi_after p s = Ret v s' -> s' = s /\ 0 <= v < 65536.
Proof.
  intros p s v s' H; unfold uint16_atoi_after, undefined, ret in H.
  run_inv H. split; [reflexivity | apply to_uint16_range].
Qed.

Ltac session_done :=
  unfold slots_valid in *; simpl in *;
  intuition (try lia; try discriminate; try congruence).

Lemma run_command_session : forall command s b s',
  run_command P command s = Ret b s' -> session_step command s b s'.
Proof.
  intros command s b s' H.
  unfold run_command in H; unfold session_step.
  destruct (dispatch command) eqn:D.
  - (* info *)
    destruct (output_only_print_device_info P s) as (a & s1 & E & Hp & Hq & Hi).
    unfold bind, ret in H; rewrite E in H; inversion H; subst.
    rewrite Hp, Hq, Hi. session_done.
  - (* exit *)
    unfold ret in H; inversion H; subst.
    session_done.
  - (* test *)
    destruct (output_only_run_tests P s) as (a & s1 & E & Hp & Hq & Hi).
    unfold bind, ret in H; rewrite E in H; inversion H; subst.
    rewrite Hp, Hq, Hi. session_done.
  - (* generate_private *)
    unfold do_generate_private, bind in H.
    destruct ((strlen (str "generate_private=0") - 1 <? strlen command) &&
              negb (is_null (strchr command "="))).
    + destruct (uint16_atoi_after (strchr command "=") s) as [v s1| |] eqn:E;
        try discriminate.
      apply uint16_atoi_after_ret in E as [-> _].
      unfold printf, emit, call, ret in H; simpl in H.
      run_inv H; session_done.
    + unfold printf, emit, call, ret in H; simpl in H.
      run_inv H; session_done.
  - (* generate_public *)
    unfold do_generate_public, bind in H.
    destruct (strlen command <=? strlen (str "generate_public=0_9") - 1).
    + unfold printf, emit, ret in H; simpl in H.
      run_inv H; session_done.
    + destruct (uint16_atoi_after (strchr command "=") s) as [v s1| |] eqn:E;
        try discriminate.
      apply uint16_atoi_after_ret in E as [-> _].
      destruct (uint16_atoi_after (strrchr command "_") s) as [v' s1| |] eqn:E';
        try discriminate.
      apply uint16_atoi_after_ret in E' as [-> _].
      unfold export_import, bind, printf, emit, call, ret in H; simpl in H.
      run_inv H; session_done.
  - (* write_lock_config *)
    unfold do_write_lock_config, bind in H.
    destruct (prompt_confirmation WARNING_CONFIG s) as [a s1| |] eqn:E;
      try discriminate.
    apply prompt_confirmation_session in E as (Hp & Hq & _ & _ & Hi).
    unfold printf, emit, call, ret in H; simpl in H.
    run_inv H; simpl; rewrite ?Hp, ?Hq; session_done.
  - (* lock_data *)
    unfold do_lock_data, bind in H.
    destruct (prompt_confirmation WARNING_DATA s) as [a s1| |] eqn:E;
      try discriminate.
    apply prompt_confirmation_session in E as (Hp & Hq & _ & _ & Hi).
    unfold printf, emit, call, ret in H; simpl in H.
    run_inv H; simpl; rewrite ?Hp, ?Hq; session_done.
  - (* private_slot *)
    unfold do_private_slot, bind in H.
    destruct (strlen command <=? strlen (str "private_slot=0") - 1).
    + unfold printf, emit, ret in H; simpl in H.
      run_inv H; session_done.
    + destruct (uint16_atoi_after (strchr command "=") s) as [v s1| |] eqn:E;
        try discriminate.
      apply uint16_atoi_after_ret in E as [-> Hv].
      destruct (15 <? v) eqn:Hc;
        unfold set_private_key_slot, printf, emit, ret in H; simpl in H;
        try apply Z.ltb_ge in Hc; run_inv H; session_done.
  - (* public_slot *)
    unfold do_public_slot, bind in H.
    destruct (strlen command <=? strlen (str "public_slot=9") - 1).
    + unfold printf, emit, ret in H; simpl in H.
      run_inv H; session_done.
    + destruct (uint16_atoi_after (strchr command "=") s) as [v s1| |] eqn:E;
        try discriminate.
      apply uint16_atoi_after_ret in E as [-> Hv].
      destruct (15 <? v) eqn:Hc;
        unfold set_public_key_slot, printf, emit, ret in H; simpl in H;
        try apply Z.ltb_ge in Hc; run_inv H; session_done.
  - (* unrecognized *)
    unfold bind, emit, ret in H; simpl in H.
    run_inv H; session_done.
Qed.

(** An iteration that returns has read a word, which it took from the
    input. *)
Lemma interactive_loop_session : forall (s : state W) b s',
  interactive_loop P s = Ret b s' ->
  exists buf rest,
    scan_s 79 (stdin s) = Some (buf, rest) /\
    session_step (c_str buf) s b s' /\
    (List.length (stdin s') < List.length (stdin s))%nat.
Proof.
  intros s b s' H.
  destruct (scan_s 79 (stdin s)) as [[buf rest]|] eqn:E.
  - rewrite (interactive_loop_scan s buf rest E) in H.
    apply run_command_session in H.
    apply scan_s_some in E as [_ Hlen].
    exists buf, rest; split; [reflexivity|].
    unfold session_step, slots_valid in *; simpl in *.
    intuition lia.
  - rewrite (interactive_loop_no_input s E) in H; discriminate.
Qed.

Lemma iterations_slots_valid : forall s s' : state W,
  iterations P s s' -> slots_valid s -> slots_valid s'.
Proof.
  induction 1 as [|s b s1 s2 Hstep _ IH]; intro Hv; [exact Hv|].
  apply IH.
  destruct (interactive_loop_session s b s1 Hstep) as (buf & rest & _ & Hs & _).
  now apply Hs.
Qed.

(** C2: the session slots start as 0 and 9 and still hold these values
    when [main] reaches its loop; every number of iterations of
    [interactive_loop] keeps both in the range 0 to 15; and an iteration
    changes the private slot only in the [private_slot] branch, the public
    slot only in the [public_slot] branch. *)
Theorem session_slots_invariant :
  (forall input (w : W),
     exists t s1,
       (print_device_info P ;;; call P psa_crypto_init ;;; run_tests P)
         (initial_state input w) = Ret t s1 /\
       atecc608a_private_key_slot s1 = 0 /\
       atecc608a_public_key_slot s1 = 9) /\
  (forall s s' : state W,
     slots_valid s -> iterations P s s' -> slots_valid s') /\
  (forall (s : state W) b s' buf rest,
     interactive_loop P s = Ret b s' ->
     scan_s 79 (stdin s) = Some (buf, rest) ->
     (atecc608a_private_key_slot s' <> atecc608a_private_key_slot s ->
      dispatch (c_str buf) = CmdPrivateSlot) /\
     (atecc608a_public_key_slot s' <> atecc608a_public_key_slot s ->
      dispatch (c_str buf) = CmdPublicSlot)).
Proof.
  split; [|split].
  - intros input w.
    assert (Ho : output_only
                   (print_device_info P ;;; call P psa_crypto_init ;;;
                    run_tests P)).
    { apply output_only_bind; [apply output_only_print_device_info|intro].
      apply output_only_bind; [apply output_only_call|intro].
      apply output_only_run_tests. }
    destruct (Ho (initial_state input w)) as (t & s1 & E & Hp & Hq & _).
    exists t, s1; auto.
  - intros s s' Hv Hit. exact (iterations_slots_valid s s' Hit Hv).
  - intros s b s' buf rest Hstep Hscan.
    destruct (interactive_loop_session s b s' Hstep)
      as (buf' & rest' & Hscan' & Hs & _).
    rewrite Hscan in Hscan'; inversion Hscan'; subst buf' rest'.
    unfold session_step in Hs; tauto.
Qed.

(** The loop of [main] does not depend on its fuel once that exceeds the
    length of the input. *)
Lemma interactive_loops_fuel : forall fuel fuel' (s : state W),
  (List.length (stdin s) < fuel)%nat ->
  (List.length (stdin s) < fuel')%nat ->
  interactive_loops P fuel s = interactive_loops P fuel' s.
Proof.
  induction fuel as [|fuel IH]; intros fuel' s Hf Hf'; [lia|].
  destruct fuel' as [|fuel']; [lia|].
  simpl; unfold bind.
  destruct (interactive_loop P s) as [b s1| |] eqn:E; try reflexivity.
  destruct b; [reflexivity|].
  apply interactive_loop_session in E as (_ & _ & _ & _ & Hlen).
  apply IH; lia.
Qed.

(** X19: an iteration that returns answers true exactly when the word
    read is [exit]; on [exit] it returns true having printed the usage
    text only, with no external call and the session slots unchanged. *)
Lemma interactive_loop_true_iff_exit : forall (s : state W) buf rest,
  scan_s 79 (stdin s) = Some (buf, rest) ->
  (forall b s', interactive_loop P s = Ret b s' ->
                (b = true <-> c_str buf = str "exit")) /\
  (c_str buf = str "exit" ->
   interactive_loop P s =
   Ret true (mkState (atecc608a_private_key_slot s)
                     (atecc608a_public_key_slot s) rest
                     (trace s ++ [Printf USAGE []]) (world s))).
Proof.
  intros s buf rest Hscan; split.
  - intros b s' H.
    destruct (interactive_loop_session s b s' H)
      as (buf' & rest' & Hscan' & Hs & _).
    rewrite Hscan in Hscan'; inversion Hscan'; subst buf' rest'.
    destruct Hs as (_ & _ & _ & _ & Hb).
    rewrite Hb.
    apply (dispatch_spec (c_str buf) (c_str_nul_free buf)).
  - intro E.
    rewrite (interactive_loop_scan s buf rest Hscan), E.
    reflexivity.
Qed.

(** C9: [main] returns the status of [psa_crypto_init].  When that is not
    [PSA_SUCCESS], [main] returns it at once: the input is not read and
    nothing but the two messages follows the call.  When it is
    [PSA_SUCCESS], [main] runs the tests and the loop, and returns
    [PSA_SUCCESS] when the loop ends, whatever the tests and the commands
    returned. *)
Theorem main_exit_status : forall s : state W,
  exists r s1,
    (print_device_info P ;;; call P psa_crypto_init) s = Ret r s1 /\
    if status r =? PSA_SUCCESS then
      exists t s2,
        run_tests P s1 = Ret t s2 /\
        main P s =
        match interactive_loops P (S (List.length (stdin s2))) s2 with
        | Ret _ s3 =>
            Ret PSA_SUCCESS (add_trace s3 [Printf "Exiting application.\n" []])
        | NoInput => NoInput
        | Undefined => Undefined
        end
    else
      main P s =
      Ret (status r)
          (add_trace s1
             [Printf "assertion failed at %s:%d (actual=%ld expected=%ld)\n"
                     [status r; PSA_SUCCESS];
              Printf "Exiting application.\n" []]).
Proof.
  intro s.
  destruct (output_only_print_device_info P s) as (u & s0 & E0 & _).
  destruct (output_only_call P psa_crypto_init s0) as (r & s1 & E1 & _).
  exists r, s1; split.
  { unfold bind; now rewrite E0, E1. }
  unfold main, ASSERT_SUCCESS_PSA, ASSERT_STATUS_PSA, bind.
  rewrite E0, E1.
  destruct (status r =? PSA_SUCCESS) eqn:Es.
  - destruct (output_only_run_tests P s1) as (t & s2 & E2 & _).
    exists t, s2; split; [exact E2|].
    change (negb true) with false; cbv beta iota.
    rewrite E2.
    destruct (interactive_loops P (S (List.length (stdin s2))) s2);
      reflexivity.
  - unfold add_trace; simpl. now rewrite <- app_assoc.
Qed.

(** The [private_slot] and [public_slot] branches on a line that carries an
    argument in range. *)
Lemma interactive_loop_private_slot : forall (s : state W) buf rest p v n,
  scan_s 79 (stdin s) = Some (buf, rest) ->
  dispatch (c_str buf) = CmdPrivateSlot ->
  (strlen (c_str buf) <=? strlen (str "private_slot=0") - 1) = false ->
  strchr (c_str buf) "=" = Some p ->
  atoi (tl p) = Some v ->
  to_uint16 v = n ->
  (15 <? n) = false ->
  interactive_loop P s =
  Ret false
      (mkState n (atecc608a_public_key_slot s) rest
               (trace s ++ [Printf USAGE [];
                            Printf "The private key slot in use is now %u.\n"
                                   [n]])
               (world s)).
Proof.
  intros s buf rest p v n Hscan Hd Hlen Hp Hv Hn Hr.
  rewrite (interactive_loop_scan s buf rest Hscan).
  unfold run_command; rewrite Hd.
  unfold do_private_slot; rewrite Hlen, Hp.
  unfold uint16_atoi_after, bind, ret; rewrite Hv, Hn, Hr.
  unfold set_private_key_slot, printf, emit; simpl.
  now rewrite <- app_assoc.
Qed.

Lemma interactive_loop_public_slot : forall (s : state W) buf rest p v n,
  scan_s 79 (stdin s) = Some (buf, rest) ->
  dispatch (c_str buf) = CmdPublicSlot ->
  (strlen (c_str buf) <=? strlen (str "public_slot=9") - 1) = false ->
  strchr (c_str buf) "=" = Some p ->
  atoi (tl p) = Some v ->
  to_uint16 v = n ->
  (15 <? n) = false ->
  interactive_loop P s =
  Ret false
      (mkState (atecc608a_private_key_slot s) n rest
               (trace s ++ [Printf USAGE [];
                            Printf "The public key slot in use is now %u.\n"
                                   [n]])
               (world s)).
Proof.
  intros s buf rest p v n Hscan Hd Hlen Hp Hv Hn Hr.
  rewrite (interactive_loop_scan s buf rest Hscan).
  unfold run_command; rewrite Hd.
  unfold do_public_slot; rewrite Hlen, Hp.
  unfold uint16_atoi_after, bind, ret; rewrite Hv, Hn, Hr.
  unfold set_public_key_slot, printf, emit; simpl.
  now rewrite <- app_assoc.
Qed.

Lemma slot_cases : forall n, 0 <= n <= 15 ->
  In n [0; 1; 2; 3; 4; 5; 6; 7; 8; 9; 10; 11; 12; 13; 14; 15].
Proof. intros n H; simpl; lia. Qed.

Ltac each_slot H :=
  apply slot_cases in H; simpl in H;
  repeat (destruct H as [H|H]); try contradiction; subst.

(** C7: for N from 0 to 15, the line [private_slot=N] sets the private
    slot to N and the line [public_slot=N] sets the public slot to N; the
    iteration returns false, and apart from the word read and the two
    messages printed the rest of the state (the other slot, the platform)
    is as before. *)
Theorem slot_commands_update_one_slot :
  forall (s : state W) buf rest N,
    0 <= N <= 15 ->
    scan_s 79 (stdin s) = Some (buf, rest) ->
    (c_str buf = line1 "private_slot" N ->
     interactive_loop P s =
     Ret false
         (mkState N (atecc608a_public_key_slot s) rest
                  (trace s ++
                   [Printf USAGE [];
                    Printf "The private key slot in use is now %u.\n" [N]])
                  (world s))) /\
    (c_str buf = line1 "public_slot" N ->
     interactive_loop P s =
     Ret false
         (mkState (atecc608a_private_key_slot s) N rest
                  (trace s ++
                   [Printf USAGE [];
                    Printf "The public key slot in use is now %u.\n" [N]])
                  (world s))).
Proof.
  intros s buf rest N HN Hscan.
  each_slot HN.
  all: split; intro E;
    [ eapply interactive_loop_private_slot
    | eapply interactive_loop_public_slot ];
    try exact Hscan; try (rewrite E; reflexivity); reflexivity.
Qed.

(** The external calls of [export_import] on two slots in range: the
    export, and the import when the export succeeded. *)
Lemma export_import_calls : forall a b (s : state W),
  (15 <? a) = false -> (15 <? b) = false ->
  exists s',
    export_import P a b s = Ret false s' /\
    calls_of (trace s') =
    calls_of (trace s) ++
    p_export a ::
    (let r := fst (env P (p_export a) (world s)) in
     if status r =? PSA_SUCCESS
     then [p_import b (data r) (Z.of_nat (List.length (data r)))]
     else []).
Proof.
  intros a b s Ha Hb.
  unfold export_import; rewrite Ha, Hb.
  unfold bind, printf, emit, call, ret; simpl.
  destruct (env P (p_export a) (world s)) as [r w1]; simpl.
  destruct (status r =? PSA_SUCCESS); simpl.
  - destruct (env P (p_import b (data r) (Z.of_nat (List.length (data r)))) w1)
      as [r' w2]; simpl.
    destruct (status r' =? PSA_SUCCESS); simpl;
      eexists; (split; [reflexivity|]); simpl;
      repeat (rewrite calls_of_app; simpl);
      rewrite ?app_nil_r, <- ?app_assoc; reflexivity.
  - eexists; (split; [reflexivity|]); simpl;
      repeat (rewrite calls_of_app; simpl);
      rewrite ?app_nil_r, <- ?app_assoc; reflexivity.
Qed.

(** The [generate_public] branch on a line long enough, with [=] in it. *)
Lemma interactive_loop_generate_public :
  forall (s : state W) buf rest p q a b,
    scan_s 79 (stdin s) = Some (buf, rest) ->
    dispatch (c_str buf) = CmdGeneratePublic ->
    (strlen (c_str buf) <=? strlen (str "generate_public=0_9") - 1) = false ->
    strchr (c_str buf) "=" = Some p ->
    atoi (tl p) = Some a ->
    strrchr (c_str buf) "_" = Some q ->
    atoi (tl q) = Some b ->
    interactive_loop P s =
    export_import P (to_uint16 a) (to_uint16 b)
      (mkState (atecc608a_private_key_slot s) (atecc608a_public_key_slot s)
               rest (trace s ++ [Printf USAGE []]) (world s)).
Proof.
  intros s buf rest p q a b Hscan Hd Hlen Hp Ha Hq Hb.
  rewrite (interactive_loop_scan s buf rest Hscan).
  unfold run_command; rewrite Hd.
  unfold do_generate_public; rewrite Hlen, Hp, Hq.
  unfold uint16_atoi_after, bind, ret. now rewrite Ha, Hb.
Qed.

(** C5, as amended: for A and B from 0 to 15 the line
    [generate_public=A_B] makes the iteration call the export with slot A
    first, and then, only when the export returned [PSA_SUCCESS], the
    import with slot B and the exported key; it makes no other external
    call and returns false. *)
Theorem generate_public_export_then_import :
  forall (s : state W) buf rest A B,
    0 <= A <= 15 -> 0 <= B <= 15 ->
    scan_s 79 (stdin s) = Some (buf, rest) ->
    c_str buf = line2 A B ->
    exists s',
      interactive_loop P s = Ret false s' /\
      calls_of (trace s') =
      calls_of (trace s) ++
      p_export A ::
      (let r := fst (env P (p_export A) (world s)) in
       if status r =? PSA_SUCCESS
       then [p_import B (data r) (Z.of_nat (List.length (data r)))]
       else []).
Proof.
  intros s buf rest A B HA HB Hscan E.
  assert (Hrun : exists a b,
            to_uint16 a = A /\ to_uint16 b = B /\
            interactive_loop P s =
            export_import P (to_uint16 a) (to_uint16 b)
              (mkState (atecc608a_private_key_slot s)
                       (atecc608a_public_key_slot s)
                       rest (trace s ++ [Printf USAGE []]) (world s))).
  { each_slot HA; each_slot HB.
    all: eexists; eexists; split; [|split];
      [ | | eapply interactive_loop_generate_public;
            try exact Hscan; try (rewrite E; reflexivity); reflexivity ];
      reflexivity. }
  destruct Hrun as (a & b & Ea & Eb & Hrun).
  rewrite Hrun, Ea, Eb.
  destruct (export_import_calls A B
              (mkState (atecc608a_private_key_slot s)
                       (atecc608a_public_key_slot s)
                       rest (trace s ++ [Printf USAGE []]) (world s)))
    as (s' & Hs' & Hc).
  { apply Z.ltb_ge; lia. }
  { apply Z.ltb_ge; lia. }
  exists s'; split; [exact Hs'|].
  rewrite Hc; simpl. rewrite calls_of_app; simpl. now rewrite app_nil_r.
Qed.

(** C6: a line dispatched to [generate_public] that is shorter than
    [generate_public=0_9] is rejected with a message, and no external call
    is made; on a longer line the private slot is read after the first [=]
    and the public slot after the last [_], both through [atoi] and the
    cast to [uint16_t]. *)
Theorem generate_public_short_line_rejected :
  forall (s : state W) buf rest,
    scan_s 79 (stdin s) = Some (buf, rest) ->
    dispatch (c_str buf) = CmdGeneratePublic ->
    (strlen (c_str buf) < strlen (str "generate_public=0_9") ->
     interactive_loop P s =
     Ret false
         (mkState (atecc608a_private_key_slot s) (atecc608a_public_key_slot s)
                  rest
                  (trace s ++
                   [Printf USAGE [];
                    Printf "Please specify both slots for public key generation.\n"
                           []])
                  (world s))) /\
    (forall pre sa pre' sb a b,
       strlen (str "generate_public=0_9") <= strlen (c_str buf) ->
       c_str buf = pre ++ "="%char :: sa -> ~ In "="%char pre ->
       c_str buf = pre' ++ "_"%char :: sb -> ~ In "_"%char sb ->
       atoi sa = Some a -> atoi sb = Some b ->
       interactive_loop P s =
       export_import P (to_uint16 a) (to_uint16 b)
         (mkState (atecc608a_private_key_slot s) (atecc608a_public_key_slot s)
                  rest (trace s ++ [Printf USAGE []]) (world s))).
Proof.
  intros s buf rest Hscan Hd; split.
  - intro Hlen.
    rewrite (interactive_loop_scan s buf rest Hscan).
    unfold run_command; rewrite Hd.
    unfold do_generate_public.
    replace (strlen (c_str buf) <=? strlen (str "generate_public=0_9") - 1)
      with true by (symmetry; apply Z.leb_le; lia).
    unfold bind, printf, emit, ret; simpl.
    now rewrite <- app_assoc.
  - intros pre sa pre' sb a b Hlen E1 N1 E2 N2 Ha Hb.
    apply (interactive_loop_generate_public s buf rest
             ("="%char :: sa) ("_"%char :: sb) a b); auto.
    + apply Z.leb_gt; lia.
    + rewrite E1; now apply strchr_first.
    + rewrite E2; now apply strrchr_last.
Qed.

(** The [generate_private] branch on a line that carries an argument in
    range: one call of the driver's generate operation. *)
Lemma interactive_loop_generate_private :
  forall (s : state W) buf rest p v n,
    scan_s 79 (stdin s) = Some (buf, rest) ->
    dispatch (c_str buf) = CmdGeneratePrivate ->
    (strlen (str "generate_private=0") - 1 <? strlen (c_str buf)) = true ->
    strchr (c_str buf) "=" = Some p ->
    atoi (tl p) = Some v ->
    to_uint16 v = n ->
    (15 <? n) = false ->
    exists s',
      interactive_loop P s = Ret false s' /\
      calls_of (trace s') =
      calls_of (trace s) ++ [p_generate n keypair_type key_bits false 0 false].
Proof.
  intros s buf rest p v n Hscan Hd Hlen Hp Hv Hn Hr.
  rewrite (interactive_loop_scan s buf rest Hscan).
  unfold run_command; rewrite Hd.
  unfold do_generate_private; rewrite Hlen, Hp.
  unfold uint16_atoi_after, bind, ret; simpl; rewrite Hv, Hn, Hr.
  unfold printf, emit, call; simpl.
  destruct (env P (p_generate n keypair_type key_bits false 0 false) (world s))
    as [r w1]; simpl.
  destruct (status r =? PSA_SUCCESS); simpl;
    eexists; (split; [reflexivity|]); simpl;
    repeat (rewrite calls_of_app; simpl);
    rewrite ?app_nil_r, <- ?app_assoc; reflexivity.
Qed.

(** Whatever the line, the [generate_private] and [generate_public]
    branches hand the driver only slots from 0 to 15. *)
Lemma slot_commands_forward_valid_slots : forall command (s : state W) b s',
  dispatch command = CmdGeneratePrivate \/
  dispatch command = CmdGeneratePublic ->
  run_command P command s = Ret b s' ->
  exists cs,
    calls_of (trace s') = calls_of (trace s) ++ cs /\
    Forall slot_in_range cs.
Proof.
  intros command s b s' Hd H.
  unfold run_command in H.
  destruct Hd as [Hd|Hd]; rewrite Hd in H.
  - unfold do_generate_private, bind in H.
    destruct ((strlen (str "generate_private=0") - 1 <? strlen command) &&
              negb (is_null (strchr command "="))).
    + destruct (uint16_atoi_after (strchr command "=") s) as [v s1| |] eqn:E;
        try discriminate.
      apply uint16_atoi_after_ret in E as [-> Hv].
      destruct (15 <? v) eqn:Hc;
        [|apply Z.ltb_ge in Hc];
        unfold printf, emit, call, ret in H; simpl in H;
        run_inv H; simpl;
        repeat (rewrite calls_of_app; simpl); rewrite <- ?app_assoc; simpl;
        (eexists; split; [reflexivity | repeat constructor; simpl; lia]).
    + unfold printf, emit, call, ret in H; simpl in H;
        run_inv H; simpl;
        repeat (rewrite calls_of_app; simpl); rewrite <- ?app_assoc; simpl;
        (eexists; split; [reflexivity | repeat constructor; simpl; lia]).
  - unfold do_generate_public, bind in H.
    destruct (strlen command <=? strlen (str "generate_public=0_9") - 1).
    + unfold printf, emit, ret in H; simpl in H.
      run_inv H; simpl.
      repeat (rewrite calls_of_app; simpl).
      eexists; split; [reflexivity | constructor].
    + destruct (uint16_atoi_after (strchr command "=") s) as [v s1| |] eqn:E;
        try discriminate.
      apply uint16_atoi_after_ret in E as [-> Hv].
      destruct (uint16_atoi_after (strrchr command "_") s) as [v' s1| |] eqn:E';
        try discriminate.
      apply uint16_atoi_after_ret in E' as [-> Hv'].
      unfold export_import in H.
      destruct (15 <? v) eqn:Hc; [|apply Z.ltb_ge in Hc];
        (destruct (15 <? v') eqn:Hc'; [|apply Z.ltb_ge in Hc']);
        unfold bind, printf, emit, call, ret in H; simpl in H;
        run_inv H; simpl;
        repeat (rewrite calls_of_app; simpl); rewrite <- ?app_assoc; simpl;
        (eexists; split; [reflexivity | repeat constructor; simpl; lia]).
Qed.

(** C1, at the failing input: the slot 65536 is outside 0 to 15, yet
    [generate_private=65536] calls the driver's generate operation (with
    slot 0) and [public_slot=65536] overwrites the public slot (with 0);
    neither line is rejected. *)
Theorem slot_65536_not_rejected :
  forall private public rest tr (w : W),
    (exists s',
       interactive_loop P
         (mkState private public
                  (line1 "generate_private" 65536 ++ "010"%char :: rest) tr w)
       = Ret false s' /\
       calls_of (trace s') =
       calls_of tr ++ [p_generate 0 keypair_type key_bits false 0 false]) /\
    interactive_loop P
      (mkState private public
               (line1 "public_slot" 65536 ++ "010"%char :: rest) tr w)
    = Ret false
          (mkState private 0 ("010"%char :: rest)
                   (tr ++ [Printf USAGE [];
                           Printf "The public key slot in use is now %u.\n"
                                  [0]])
                   w).
Proof.
  intros private public rest tr w; split.
  - eapply (interactive_loop_generate_private
              (mkState private public
                 (line1 "generate_private" 65536 ++ "010"%char :: rest) tr w));
      reflexivity.
  - eapply interactive_loop_public_slot; reflexivity.
Qed.

(** C4, at the failing input: a line dispatched to [private_slot],
    [public_slot] or [generate_public] that is long enough and holds no
    [=] hands the null pointer plus one to [atoi]; the iteration then has
    no defined return value.  The [generate_private] branch tests the
    pointer and returns false on such a line. *)
Theorem missing_equals_undefined :
  forall private public rest tr (w : W),
    interactive_loop P
      (mkState private public
               (str "private_slot_12345" ++ "010"%char :: rest) tr w)
    = Undefined /\
    interactive_loop P
      (mkState private public
               (str "public_slot_12345" ++ "010"%char :: rest) tr w)
    = Undefined /\
    interactive_loop P
      (mkState private public
               (str "generate_public_0_9_" ++ "010"%char :: rest) tr w)
    = Undefined /\
    exists s',
      interactive_loop P
        (mkState private public
                 (str "generate_private_12" ++ "010"%char :: rest) tr w)
      = Ret false s'.
Proof.
  intros private public rest tr w.
  repeat split; try (erewrite interactive_loop_scan by reflexivity; reflexivity).
  erewrite interactive_loop_scan by reflexivity.
  unfold run_command, do_generate_private, bind, printf, emit, call, ret;
    simpl.
  destruct (env P (p_generate 0 keypair_type key_bits false 0 false) w)
    as [r w1]; simpl.
  destruct (status r =? PSA_SUCCESS); simpl; eexists; reflexivity.
Qed.

End Claims.

(** C8, as amended: on the word read, [info], [exit], [test],
    [write_lock_config] and [lock_data] are matched by equality, and the
    four other commands by the leading characters of the word being the
    keyword without its last character: [generate_privat],
    [generate_publi], [private_slo], [public_slo]. *)
Theorem dispatch_by_keyword_prefix : forall buf,
  let command := c_str buf in
  (dispatch command = CmdInfo <-> command = str "info") /\
  (dispatch command = CmdExit <-> command = str "exit") /\
  (dispatch command = CmdTest <-> command = str "test") /\
  (dispatch command = CmdWriteLockConfig <->
     command = str "write_lock_config") /\
  (dispatch command = CmdLockData <-> command = str "lock_data") /\
  (dispatch command = CmdGeneratePrivate <->
     starts_with (str "generate_privat") command) /\
  (dispatch command = CmdGeneratePublic <->
     starts_with (str "generate_publi") command) /\
  (dispatch command = CmdPrivateSlot <->
     starts_with (str "private_slo") command) /\
  (dispatch command = CmdPublicSlot <->
     starts_with (str "public_slo") command).
Proof.
  intros buf command.
  apply dispatch_spec, c_str_nul_free.
Qed.

(** ** Closed instances *)

(** C10 at the response [ Yes]. *)
Lemma prompt_confirmation_yes_iff_witness :
  exists answer,
    prompt_confirmation WARNING_DATA (initial_state (str " Yes") tt) =
    Ret answer
        (mkState 0 9 (str "es")
                 ([] ++ [Printf WARNING_DATA []; Printf "\n" []]) tt) /\
    (answer = true <-> "Y"%char = "y"%char \/ "Y"%char = "Y"%char).
Proof.
  apply (prompt_confirmation_yes_iff WARNING_DATA
           (initial_state (str " Yes") tt) [" "%char] "Y"%char (str "es"));
    reflexivity.
Defined.

(** C3 at the input [lock_data n]. *)
Lemma declined_confirmation_no_effect_witness :
  exists warning s',
    interactive_loop (stateless all_succeed)
                     (initial_state (str "lock_data n") tt) =
    Ret false s' /\
    s' = mkState 0 9 []
                 ([] ++ [Printf USAGE []; Printf warning []; Printf "\n" []])
                 tt /\
    calls_of (trace s') = [].
Proof.
  apply (declined_confirmation_no_effect (stateless all_succeed)
           (initial_state (str "lock_data n") tt)
           (str "lock_data") (str " n") [" "%char] "n"%char []).
  - reflexivity.
  - right; reflexivity.
  - reflexivity.
  - reflexivity.
  - reflexivity.
  - discriminate.
  - discriminate.
Defined.

(** C2 after the two lines [private_slot=3] and [public_slot=12]. *)
Lemma session_slots_invariant_witness :
  exists s',
    iterations (stateless all_succeed)
               (initial_state (str "private_slot=3 public_slot=12") tt) s' /\
    atecc608a_private_key_slot s' = 3 /\
    atecc608a_public_key_slot s' = 12 /\
    slots_valid s'.
Proof.
  eexists; split; [|split; [|split]].
  - eapply iterations_step; [vm_compute; reflexivity|].
    eapply iterations_step; [vm_compute; reflexivity|].
    apply iterations_nil.
  - reflexivity.
  - reflexivity.
  - eapply (proj1 (proj2 (session_slots_invariant (stateless all_succeed)))
              (initial_state (str "private_slot=3 public_slot=12") tt)).
    + unfold slots_valid; simpl; lia.
    + eapply iterations_step; [vm_compute; reflexivity|].
      eapply iterations_step; [vm_compute; reflexivity|].
      apply iterations_nil.
Defined.

(** C7 at the lines [private_slot=3] and [public_slot=3]. *)
Lemma slot_commands_update_one_slot_witness :
  interactive_loop (stateless all_succeed)
                   (initial_state (line1 "private_slot" 3) tt) =
  Ret false
      (mkState 3 9 []
               ([] ++ [Printf USAGE [];
                       Printf "The private key slot in use is now %u.\n" [3]])
               tt) /\
  interactive_loop (stateless all_succeed)
                   (initial_state (line1 "public_slot" 3) tt) =
  Ret false
      (mkState 0 3 []
               ([] ++ [Printf USAGE [];
                       Printf "The public key slot in use is now %u.\n" [3]])
               tt).
Proof.
  split.
  - apply (proj1 (slot_commands_update_one_slot (stateless all_succeed)
                    (initial_state (line1 "private_slot" 3) tt)
                    (line1 "private_slot" 3) [] 3
                    ltac:(lia) eq_refl)).
    reflexivity.
  - apply (proj2 (slot_commands_update_one_slot (stateless all_succeed)
                    (initial_state (line1 "public_slot" 3) tt)
                    (line1 "public_slot" 3) [] 3
                    ltac:(lia) eq_refl)).
    reflexivity.
Defined.

(** C5 as stated fails on a device whose export fails: the line
    [generate_public=0_9] calls the export with slot 0 and nothing else,
    the import is not called. *)
Lemma generate_public_0_9_export_fails :
  exists s',
    interactive_loop (stateless export_fails)
                     (initial_state (line2 0 9) tt) = Ret false s' /\
    calls_of (trace s') = [p_export 0] /\
    forall key n, ~ In (p_import 9 key n) (calls_of (trace s')).
Proof.
  eexists; split; [vm_compute; reflexivity|]; split; [reflexivity|].
  intros key n [H|[]]; discriminate H.
Qed.

(** C5 as amended, at the line [generate_public=0_9] on a device that
    exports and imports. *)
Lemma generate_public_export_then_import_witness :
  exists s',
    interactive_loop (stateless all_succeed)
                     (initial_state (line2 0 9) tt) = Ret false s' /\
    calls_of (trace s') = [p_export 0; p_import 9 [] 0].
Proof.
  apply (generate_public_export_then_import (stateless all_succeed)
           (initial_state (line2 0 9) tt) (line2 0 9) [] 0 9);
    try reflexivity; lia.
Defined.

(** C6 at the lines [generate_public=0_] (too short) and
    [generate_public=12_7]. *)
Lemma generate_public_short_line_rejected_witness :
  interactive_loop (stateless all_succeed)
                   (initial_state (str "generate_public=0_") tt) =
  Ret false
      (mkState 0 9 []
               ([] ++
                [Printf USAGE [];
                 Printf "Please specify both slots for public key generation.\n"
                        []])
               tt) /\
  interactive_loop (stateless all_succeed)
                   (initial_state (str "generate_public=12_7") tt) =
  export_import (stateless all_succeed) (to_uint16 12) (to_uint16 7)
                (mkState 0 9 [] ([] ++ [Printf USAGE []]) tt).
Proof.
  split.
  - apply (proj1 (generate_public_short_line_rejected (stateless all_succeed)
                    (initial_state (str "generate_public=0_") tt)
                    (str "generate_public=0_") [] eq_refl eq_refl)).
    reflexivity.
  - apply (proj2 (generate_public_short_line_rejected (stateless all_succeed)
                    (initial_state (str "generate_public=12_7") tt)
                    (str "generate_public=12_7") [] eq_refl eq_refl)
             (str "generate_public") (str "12_7")
             (str "generate_public=12") (str "7") 12 7).
    + unfold strlen; simpl; lia.
    + reflexivity.
    + simpl; intuition discriminate.
    + reflexivity.
    + simpl; intuition discriminate.
    + reflexivity.
    + reflexivity.
Defined.

(** C8 as stated fails on the word [generate_privatX=3]: it does not
    start with [generate_private], yet it runs the [generate_private]
    branch and the driver generates a key in slot 3. *)
Lemma generate_privatX_dispatched :
  dispatch (c_str (str "generate_privatX=3")) = CmdGeneratePrivate /\
  ~ starts_with (str "generate_private") (c_str (str "generate_privatX=3")) /\
  exists s',
    interactive_loop (stateless all_succeed)
                     (initial_state (str "generate_privatX=3") tt) =
    Ret false s' /\
    calls_of (trace s') = [p_generate 3 keypair_type key_bits false 0 false].
Proof.
  split; [reflexivity|]; split.
  - intro H; vm_compute in H; discriminate H.
  - eexists; split; [vm_compute; reflexivity | reflexivity].
Qed.

(** ** Scenarios of the specification *)

Example scenario_private_slot_then_generate :
  exists s',
    iterations (stateless all_succeed)
               (initial_state (str "private_slot=3 generate_private=3") tt)
               s' /\
    atecc608a_private_key_slot s' = 3 /\
    calls_of (trace s') = [p_generate 3 keypair_type key_bits false 0 false].
Proof.
  eexists; split; [|split].
  - eapply iterations_step; [vm_compute; reflexivity|].
    eapply iterations_step; [vm_compute; reflexivity|].
    apply iterations_nil.
  - reflexivity.
  - reflexivity.
Qed.

Example scenario_public_slot_without_argument :
  interactive_loop (stateless all_succeed)
                   (initial_state (str "public_slot") tt) =
  Ret false
      (mkState 0 9 []
         [Printf USAGE [];
          Printf "Please specify a slot that will be used as a public key in tests.\n"
                 []]
         tt).
Proof. reflexivity. Qed.

(** [main] returns 0 after failed tests and failed commands, and the
    status of the initialization when that fails. *)
Example main_returns_zero_after_failures :
  exists s',
    main (stateless export_fails)
         (initial_state (str "test generate_public=0_9 bogus exit") tt) =
    Ret 0 s'.
Proof. eexists; vm_compute; reflexivity. Qed.

Example main_returns_init_status :
  exists s',
    main (stateless init_fails) (initial_state (str "info exit") tt) =
    Ret (-141) s' /\
    stdin s' = str "info exit".
Proof. eexists; split; [vm_compute; reflexivity | reflexivity]. Qed.

Example main_waits_for_input :
  main (stateless all_succeed) (initial_state (str "info") tt) = NoInput.
Proof. vm_compute; reflexivity. Qed.

(** ** The string functions on examples *)

Example atoi_12 : atoi (str "12_3") = Some 12.
Proof. reflexivity. Qed.

Example atoi_negative : atoi (str "-7x") = Some (-7).
Proof. reflexivity. Qed.

Example atoi_no_digits : atoi (str "abc") = Some 0.
Proof. reflexivity. Qed.

Example atoi_not_representable : atoi (str "2147483648") = None.
Proof. reflexivity. Qed.

Example strchr_first_equals :
  strchr (str "generate_public=0_9") "=" = Some (str "=0_9").
Proof. reflexivity. Qed.

Example strrchr_last_underscore :
  strrchr (str "generate_public=0_9") "_" = Some (str "_9").
Proof. reflexivity. Qed.

Example scan_s_first_word :
  scan_s 79 (str "  exit now") = Some (str "exit", str " now").
Proof. reflexivity. Qed.

Example to_uint16_wraps : to_uint16 65536 = 0 /\ to_uint16 (-1) = 65535.
Proof. split; reflexivity. Qed.

(** * Further properties *)

(** ** Which external calls a computation makes *)

Section CallsWithin.

Context {W : Type} (P : platform W).
Variables (p q : Z) (Q : ext_call -> Prop).

Lemma calls_within_ret : forall A (a : A), calls_within p q Q (@ret W A a).
Proof.
  intros A a s Hp Hq; exists a, s, []; rewrite app_nil_r; auto 10.
Qed.

Lemma calls_within_bind : forall A B (m : M W A) (k : A -> M W B),
  calls_within p q Q m -> (forall a, calls_within p q Q (k a)) ->
  calls_within p q Q (bind m k).
Proof.
  intros A B m k Hm Hk s Hp Hq.
  destruct (Hm s Hp Hq) as (a & s1 & cs1 & E1 & Hp1 & Hq1 & Hi1 & Hc1 & HQ1).
  destruct (Hk a s1 Hp1 Hq1)
    as (b & s2 & cs2 & E2 & Hp2 & Hq2 & Hi2 & Hc2 & HQ2).
  exists b, s2, (cs1 ++ cs2); unfold bind; rewrite E1, E2.
  repeat split; try congruence.
  - rewrite Hc2, Hc1; apply eq_sym, app_assoc.
  - apply Forall_app; auto.
Qed.

Lemma calls_within_emit : forall e,
  match e with Call _ => False | _ => True end ->
  calls_within p q Q (@emit W e).
Proof.
  intros e He s Hp Hq; unfold emit.
  eexists; eexists; exists []; split; [reflexivity|]; simpl.
  rewrite calls_of_app, app_nil_r.
  destruct e; try contradiction; simpl; rewrite app_nil_r; auto 10.
Qed.

Lemma calls_within_printf : forall f args,
  calls_within p q Q (@printf W f args).
Proof. intros; now apply calls_within_emit. Qed.

Lemma calls_within_call : forall c, Q c -> calls_within p q Q (call P c).
Proof.
  intros c Hc s Hp Hq; unfold call.
  destruct (env P c (world s)) as [r w].
  eexists; eexists; exists [c]; split; [reflexivity|]; simpl.
  rewrite calls_of_app; simpl; auto 10.
Qed.

Lemma calls_within_get_private : forall B (k : Z -> M W B),
  calls_within p q Q (k p) ->
  calls_within p q Q (bind get_private_key_slot k).
Proof.
  intros B k Hk s Hp Hq.
  unfold bind, get_private_key_slot; rewrite Hp. now apply Hk.
Qed.

Lemma calls_within_get_public : forall B (k : Z -> M W B),
  calls_within p q Q (k q) ->
  calls_within p q Q (bind get_public_key_slot k).
Proof.
  intros B k Hk s Hp Hq.
  unfold bind, get_public_key_slot; rewrite Hq. now apply Hk.
Qed.

Lemma calls_within_value : forall m,
  calls_within p q Q m -> calls_within p q Q (value (W:=W) m).
Proof.
  intros m Hm; unfold value.
  apply calls_within_bind; [exact Hm | intro; apply calls_within_ret].
Qed.

Lemma calls_within_ASSERT_STATUS_PSA : forall e expected err rest,
  calls_within p q Q e -> (forall d, calls_within p q Q (rest d)) ->
  calls_within p q Q (ASSERT_STATUS_PSA (W:=W) e expected err rest).
Proof.
  intros e expected err rest He Hr; unfold ASSERT_STATUS_PSA.
  apply calls_within_bind; [exact He|]; intro r.
  destruct (negb (status r =? expected)); [|apply Hr].
  apply calls_within_bind;
    [apply calls_within_printf | intro; apply calls_within_ret].
Qed.

Lemma calls_within_ASSERT_STATUS : forall e expected err rest,
  calls_within p q Q e -> (forall d, calls_within p q Q (rest d)) ->
  calls_within p q Q (ASSERT_STATUS (W:=W) e expected err rest).
Proof.
  intros e expected err rest He Hr; unfold ASSERT_STATUS.
  apply calls_within_bind; [exact He|]; intro r.
  destruct (negb (status r =? expected)); [|apply Hr].
  apply calls_within_bind;
    [apply calls_within_printf | intro; apply calls_within_ret].
Qed.

End CallsWithin.

Ltac calls_within_step :=
  lazymatch goal with
  | |- calls_within _ _ _ (ret _) => apply calls_within_ret
  | |- calls_within _ _ _ (printf _ _) => apply calls_within_printf
  | |- calls_within _ _ _ (call _ _) =>
      apply calls_within_call; simpl; auto
  | |- calls_within _ _ _ (value _) => apply calls_within_value
  | |- calls_within _ _ _ (ASSERT_SUCCESS_PSA _ _) =>
      apply calls_within_ASSERT_STATUS_PSA; [|intro]
  | |- calls_within _ _ _ (ASSERT_SUCCESS _ _ _) =>
      apply calls_within_ASSERT_STATUS; [|intro]
  | |- calls_within _ _ _ (ASSERT_STATUS_PSA _ _ _ _) =>
      apply calls_within_ASSERT_STATUS_PSA; [|intro]
  | |- calls_within _ _ _ (ASSERT_STATUS _ _ _ _) =>
      apply calls_within_ASSERT_STATUS; [|intro]
  | |- calls_within _ _ _ (bind get_private_key_slot _) =>
      apply calls_within_get_private
  | |- calls_within _ _ _ (bind get_public_key_slot _) =>
      apply calls_within_get_public
  | |- calls_within _ _ _ (bind _ _) => apply calls_within_bind; [|intro]
  end.

Ltac calls_within_tac := cbv zeta; repeat calls_within_step.

Section Tests.

Context {W : Type} (P : platform W).

Lemma calls_within_hash_sha256 : forall p q Q input expected,
  Q atecc608a_init -> Q atecc608a_deinit ->
  (forall i, Q (atcab_hw_sha2_256 i)) ->
  calls_within p q Q (atecc608a_hash_sha256 P input expected).
Proof.
  intros; unfold atecc608a_hash_sha256; calls_within_tac.
Qed.

Lemma calls_within_print_slot_locks : forall p q Q slots rest,
  (forall i, Q (atcab_is_slot_locked i)) ->
  calls_within p q Q rest ->
  calls_within p q Q (print_slot_locks P slots rest).
Proof.
  induction slots as [|i slots IH]; intros rest HQ Hr; simpl.
  - exact Hr.
  - calls_within_tac. now apply IH.
Qed.

Lemma calls_within_run_tests : forall p q,
  calls_within p q (tests_call p q) (run_tests P).
Proof.
  intros p q.
  unfold run_tests, test_hash_sha256, test_generate_import,
    test_export_import, test_sign_verify, test_psa_import_verify,
    test_write_read_slot.
  calls_within_tac; apply calls_within_hash_sha256; simpl; auto.
Qed.

Lemma calls_within_print_device_info : forall p q,
  calls_within p q read_only_call (print_device_info P).
Proof.
  intros p q.
  unfold print_device_info, atecc608a_print_serial_number,
    atecc608a_print_config_zone, atecc608a_print_locked_zones.
  calls_within_tac.
  apply calls_within_print_slot_locks; [simpl; auto|].
  calls_within_tac.
Qed.

(** X1: whatever the device answers, [run_tests] returns, leaves the
    session slots and the input as they are, and its key operations name
    only the session slots: generate, export and sign the private slot
    (generate also the invalid slot 16), import and verify the public
    slot; clear-text writes and reads name slot 8; no zone is locked. *)
Theorem run_tests_slot_discipline : forall (s : state W),
  exists st s' cs,
    run_tests P s = Ret st s' /\
    atecc608a_private_key_slot s' = atecc608a_private_key_slot s /\
    atecc608a_public_key_slot s' = atecc608a_public_key_slot s /\
    stdin s' = stdin s /\
    calls_of (trace s') = calls_of (trace s) ++ cs /\
    Forall (tests_call (atecc608a_private_key_slot s)
                       (atecc608a_public_key_slot s)) cs.
Proof.
  intro s.
  exact (calls_within_run_tests _ _ s eq_refl eq_refl).
Qed.

(** X2: whatever the device answers, [print_device_info] returns, leaves
    the session slots and the input as they are, and makes only calls that
    read the device or print: no key is generated, imported, exported or
    used, nothing is written and no zone is locked. *)
Theorem print_device_info_read_only : forall (s : state W),
  exists s' cs,
    print_device_info P s = Ret tt s' /\
    atecc608a_private_key_slot s' = atecc608a_private_key_slot s /\
    atecc608a_public_key_slot s' = atecc608a_public_key_slot s /\
    stdin s' = stdin s /\
    calls_of (trace s') = calls_of (trace s) ++ cs /\
    Forall read_only_call cs.
Proof.
  intro s.
  destruct (calls_within_print_device_info _ _ s eq_refl eq_refl)
    as ([] & s' & cs & E).
  exists s', cs; exact E.
Qed.

End Tests.

(** ** Opening and closing the device *)

Section DeviceSession.

Context {W : Type} (P : platform W).

(** The shape shared by the functions that talk to the device: open it,
    run [inner] if that succeeded, close it in every case. *)
Lemma session_bracket : forall (inner : list Z -> M W Z) (s : state W),
  (forall d, calls_within (atecc608a_private_key_slot s)
               (atecc608a_public_key_slot s) inside_session (inner d)) ->
  exists status s' cs,
    (status <- ASSERT_SUCCESS_PSA (call P atecc608a_init) inner ;;
     call P atecc608a_deinit ;;; ret status) s = Ret status s' /\
    calls_of (trace s') =
    calls_of (trace s) ++ atecc608a_init :: cs ++ [atecc608a_deinit] /\
    Forall inside_session cs.
Proof.
  intros inner s Hin.
  unfold ASSERT_SUCCESS_PSA, ASSERT_STATUS_PSA, bind at 1 2.
  unfold call at 1.
  destruct (env P atecc608a_init (world s)) as [r w1].
  set (s1 := mkState _ _ _ _ w1).
  destruct (negb (status r =? PSA_SUCCESS)).
  - unfold bind, printf, emit, call, ret; simpl.
    destruct (env P atecc608a_deinit w1) as [r' w2].
    eexists; eexists; exists []; split; [reflexivity|]; simpl.
    repeat (rewrite calls_of_app; simpl).
    rewrite ?app_nil_r, <- ?app_assoc; simpl; auto.
  - destruct (Hin (data r) s1 eq_refl eq_refl)
      as (st & s2 & cs & E & _ & _ & _ & Hc & HQ).
    rewrite E.
    unfold bind, call, ret; simpl.
    destruct (env P atecc608a_deinit (world s2)) as [r' w2].
    eexists; eexists; exists cs; split; [reflexivity|]; simpl.
    rewrite calls_of_app, Hc; subst s1; simpl.
    rewrite calls_of_app; simpl.
    rewrite <- !app_assoc; simpl; auto.
Qed.

(** X3: [atecc608a_hash_sha256], [atecc608a_print_config_zone] and
    [atecc608a_print_locked_zones] each open the device first and close it
    last, whatever fails in between (also when opening failed), and do not
    open or close it in between. *)
Theorem device_opened_first_closed_last : forall (s : state W),
  (forall input expected,
     exists status s' cs,
       atecc608a_hash_sha256 P input expected s = Ret status s' /\
       calls_of (trace s') =
       calls_of (trace s) ++ atecc608a_init :: cs ++ [atecc608a_deinit] /\
       Forall inside_session cs) /\
  (exists status s' cs,
     atecc608a_print_config_zone P s = Ret status s' /\
     calls_of (trace s') =
     calls_of (trace s) ++ atecc608a_init :: cs ++ [atecc608a_deinit] /\
     Forall inside_session cs) /\
  (exists status s' cs,
     atecc608a_print_locked_zones P s = Ret status s' /\
     calls_of (trace s') =
     calls_of (trace s) ++ atecc608a_init :: cs ++ [atecc608a_deinit] /\
     Forall inside_session cs).
Proof.
  intro s; split; [|split].
  - intros input expected.
    apply (session_bracket _ s); intro d. calls_within_tac.
  - apply (session_bracket _ s); intro d. calls_within_tac.
  - unfold atecc608a_print_locked_zones.
    set (s0 := mkState (atecc608a_private_key_slot s)
                 (atecc608a_public_key_slot s) (stdin s)
                 (trace s ++ [Printf "--- Device locks information ---\n" []])
                 (world s)).
    destruct (session_bracket
                (fun _ =>
                   ASSERT_SUCCESS P (call P (atcab_is_locked LOCK_ZONE_CONFIG))
                     (fun locked =>
                        printf "  - Config locked: %d\n" [hd 0 locked] ;;;
                        ASSERT_SUCCESS P
                          (call P (atcab_is_locked LOCK_ZONE_DATA))
                          (fun locked0 =>
                             printf "  - Data locked: %d\n" [hd 0 locked0] ;;;
                             print_slot_locks P (map Z.of_nat (seq 0 16))
                               (printf "--------------------------------\n" [] ;;;
                                ret PSA_SUCCESS)))) s0)
      as (st & s' & cs & E & Hc & HQ).
    { intro d; calls_within_tac.
      apply calls_within_print_slot_locks; [simpl; auto|].
      calls_within_tac. }
    exists st, s', cs; split; [|split; [|exact HQ]].
    + unfold bind at 1, printf, emit. exact E.
    + rewrite Hc; subst s0; simpl.
      rewrite calls_of_app; simpl. now rewrite app_nil_r.
Qed.

(** ** The queries of [atecc608a_print_locked_zones] *)







End DeviceSession.

(** ** Integers as typed and as read *)

Lemma digits_stop : forall acc rest,
  not_a_digit_next rest -> digits acc rest = acc.
Proof.
  intros acc [|c rest] H; simpl in *; [reflexivity | now rewrite H].
Qed.

Lemma digits_uint : forall d d' rest,
  not_a_digit_next rest ->
  digits (Z.of_N (DecimalPos.Unsigned.of_lu d'))
         (str (NilEmpty.string_of_uint d) ++ rest) =
  Z.of_N (DecimalPos.Unsigned.of_lu (Decimal.revapp d d')).
Proof.
  induction d as [|d IH|d IH|d IH|d IH|d IH|d IH|d IH|d IH|d IH|d IH];
    intros d' rest Hr;
    [ now apply digits_stop | .. ];
    simpl Decimal.revapp; rewrite <- (IH _ rest Hr);
    cbn [NilEmpty.string_of_uint str list_ascii_of_string app digits];
    match goal with
    | |- context [isdigit ?c] =>
        replace (isdigit c) with true by reflexivity;
        replace (code c - 48) with (code c - 48) by reflexivity
    end;
    f_equal; cbn [DecimalPos.Unsigned.of_lu]; unfold code; simpl N_of_ascii;
    lia.
Qed.

Lemma digits_to_uint : forall p rest,
  not_a_digit_next rest ->
  digits 0 (str (NilEmpty.string_of_uint (Pos.to_uint p)) ++ rest) = Zpos p.
Proof.
  intros p rest Hr.
  change 0 with (Z.of_N (DecimalPos.Unsigned.of_lu Decimal.Nil)).
  rewrite digits_uint by exact Hr.
  change (Decimal.revapp (Pos.to_uint p) Decimal.Nil)
    with (Decimal.rev (Pos.to_uint p)).
  rewrite <- DecimalPos.Unsigned.of_uint_alt, DecimalPos.Unsigned.of_to.
  reflexivity.
Qed.

(** The characters of a positive number: digits, the first of which is
    neither white space nor a sign. *)
Lemma to_uint_chars : forall p,
  NilZero.string_of_uint (Pos.to_uint p) =
  NilEmpty.string_of_uint (Pos.to_uint p) /\
  exists c cs,
    str (NilEmpty.string_of_uint (Pos.to_uint p)) = c :: cs /\
    isdigit c = true.
Proof.
  intro p.
  pose proof (DecimalPos.Unsigned.to_uint_nonnil p) as Hn.
  destruct (Pos.to_uint p); try contradiction;
    (split; [reflexivity|]); eexists; eexists; split; reflexivity.
Qed.

Lemma digit_plain : forall c,
  isdigit c = true ->
  isspace c = false /\ c <> "-"%char /\ c <> "+"%char.
Proof.
  intros c H; unfold isdigit, isspace in *.
  apply andb_prop in H as [H1 H2].
  apply Z.leb_le in H1, H2.
  repeat split.
  - apply orb_false_iff; split.
    + apply Z.eqb_neq; lia.
    + apply andb_false_iff; right. apply Z.leb_gt; lia.
  - intro E; subst c; vm_compute in H1. apply H1; reflexivity.
  - intro E; subst c; vm_compute in H1. apply H1; reflexivity.
Qed.

Lemma atoi_digit_first : forall c cs,
  isdigit c = true ->
  atoi (c :: cs) =
  (let v := digits 0 (c :: cs) in
   if (INT_MIN <=? v) && (v <=? INT_MAX) then Some v else None).
Proof.
  intros c cs H.
  destruct (digit_plain c H) as (Hs & Hm & Hp).
  unfold atoi; cbn [skip_space]; rewrite Hs.
  destruct c as [b0 b1 b2 b3 b4 b5 b6 b7].
  destruct b0, b1, b2, b3, b4, b5, b6, b7;
    try reflexivity; exfalso;
    first [apply Hm; reflexivity | apply Hp; reflexivity].
Qed.

(** What [atoi] reads back from a number in range as the user types it. *)
Lemma atoi_decimal : forall n rest,
  INT_MIN <= n <= INT_MAX ->
  not_a_digit_next rest ->
  atoi (decimal n ++ rest) = Some n.
Proof.
  intros n rest Hn Hr.
  assert (Hrange : (INT_MIN <=? n) && (n <=? INT_MAX) = true).
  { apply andb_true_iff; split; apply Z.leb_le; lia. }
  unfold decimal; destruct n as [|p|p]; cbn [Z.to_int NilZero.string_of_int].
  - reflexivity || (destruct rest as [|c rest]; simpl in *;
                    [reflexivity | unfold atoi; simpl; now rewrite Hr]).
  - destruct (to_uint_chars p) as (E & c & cs & Ec & Hc).
    rewrite E.
    pose proof (digits_to_uint p rest Hr) as Hd.
    rewrite Ec in *; simpl app in *.
    rewrite (atoi_digit_first c (cs ++ rest) Hc); cbv zeta.
    now rewrite Hd, Hrange.
  - destruct (to_uint_chars p) as (E & c & cs & Ec & Hc).
    rewrite E.
    pose proof (digits_to_uint p rest Hr) as Hd.
    unfold str; cbn [list_ascii_of_string app].
    unfold atoi; cbn [skip_space].
    replace (isspace "-") with false by reflexivity.
    fold (str (NilEmpty.string_of_uint (Pos.to_uint p))).
    rewrite Hd.
    change (- Z.pos p) with (Z.neg p). now rewrite Hrange.
Qed.

Lemma uint_chars_digits : forall d c,
  In c (str (NilEmpty.string_of_uint d)) -> isdigit c = true.
Proof.
  induction d; simpl; intros c H; try contradiction;
    destruct H as [H|H]; try (subst c; reflexivity); now apply IHd.
Qed.

(** A number as typed is not empty and holds only digits and the sign. *)
Lemma decimal_chars : forall n,
  (1 <= List.length (decimal n))%nat /\
  forall c, In c (decimal n) -> isdigit c = true \/ c = "-"%char.
Proof.
  intro n; unfold decimal.
  destruct n as [|p|p]; cbn [Z.to_int NilZero.string_of_int].
  - split; [simpl; lia|].
    intros c [H|[]]; subst c; left; reflexivity.
  - destruct (to_uint_chars p) as (E & c0 & cs & Ec & Hc).
    rewrite E; split; [rewrite Ec; simpl; lia|].
    intros c H; left. now apply (uint_chars_digits (Pos.to_uint p)).
  - destruct (to_uint_chars p) as (E & c0 & cs & Ec & Hc).
    rewrite E; split; [simpl; lia|].
    intros c [H|H]; [now right | left].
    now apply (uint_chars_digits (Pos.to_uint p)).
Qed.

Lemma decimal_without : forall n ch,
  isdigit ch = false -> ch <> "-"%char -> ~ In ch (decimal n).
Proof.
  intros n ch Hd Hm Hin.
  destruct (proj2 (decimal_chars n) ch Hin); congruence.
Qed.

Section TypedArguments.

Context {W : Type} (P : platform W).

(** The slot commands on a word with an argument that [atoi] can read. *)
Lemma interactive_loop_private_slot_parsed :
  forall (s : state W) buf rest p v,
    scan_s 79 (stdin s) = Some (buf, rest) ->
    dispatch (c_str buf) = CmdPrivateSlot ->
    (strlen (c_str buf) <=? strlen (str "private_slot=0") - 1) = false ->
    strchr (c_str buf) "=" = Some p ->
    atoi (tl p) = Some v ->
    interactive_loop P s =
    Ret false
        (if 15 <? to_uint16 v
         then mkState (atecc608a_private_key_slot s)
                (atecc608a_public_key_slot s) rest
                (trace s ++
                 [Printf USAGE [];
                  Printf "Invalid slot %u provided as a private key slot.\n"
                         [to_uint16 v]])
                (world s)
         else mkState (to_uint16 v) (atecc608a_public_key_slot s) rest
                (trace s ++
                 [Printf USAGE [];
                  Printf "The private key slot in use is now %u.\n"
                         [to_uint16 v]])
                (world s)).
Proof.
  intros s buf rest p v Hscan Hd Hlen Hp Hv.
  rewrite (interactive_loop_scan P s buf rest Hscan).
  unfold run_command; rewrite Hd.
  unfold do_private_slot; rewrite Hlen, Hp.
  unfold uint16_atoi_after, bind, ret; rewrite Hv.
  destruct (15 <? to_uint16 v);
    unfold set_private_key_slot, printf, emit; simpl;
    now rewrite <- app_assoc.
Qed.

Lemma interactive_loop_public_slot_parsed :
  forall (s : state W) buf rest p v,
    scan_s 79 (stdin s) = Some (buf, rest) ->
    dispatch (c_str buf) = CmdPublicSlot ->
    (strlen (c_str buf) <=? strlen (str "public_slot=9") - 1) = false ->
    strchr (c_str buf) "=" = Some p ->
    atoi (tl p) = Some v ->
    interactive_loop P s =
    Ret false
        (if 15 <? to_uint16 v
         then mkState (atecc608a_private_key_slot s)
                (atecc608a_public_key_slot s) rest
                (trace s ++
                 [Printf USAGE [];
                  Printf "Invalid slot %u provided as a public key slot.\n"
                         [to_uint16 v]])
                (world s)
         else mkState (atecc608a_private_key_slot s) (to_uint16 v) rest
                (trace s ++
                 [Printf USAGE [];
                  Printf "The public key slot in use is now %u.\n"
                         [to_uint16 v]])
                (world s)).
Proof.
  intros s buf rest p v Hscan Hd Hlen Hp Hv.
  rewrite (interactive_loop_scan P s buf rest Hscan).
  unfold run_command; rewrite Hd.
  unfold do_public_slot; rewrite Hlen, Hp.
  unfold uint16_atoi_after, bind, ret; rewrite Hv.
  destruct (15 <? to_uint16 v);
    unfold set_public_key_slot, printf, emit; simpl;
    now rewrite <- app_assoc.
Qed.

(** What the word [keyword=N] looks like to the branches. *)
Lemma line1_facts : forall keyword n buf,
  c_str buf = line1 keyword n ->
  ~ In "="%char (str keyword) ->
  INT_MIN <= n <= INT_MAX ->
  strlen (str keyword) + 2 <= strlen (c_str buf) /\
  strchr (c_str buf) "=" = Some ("="%char :: decimal n) /\
  atoi (tl ("="%char :: decimal n)) = Some n.
Proof.
  intros keyword n buf E Hk Hn; rewrite E; unfold line1.
  split; [|split].
  - unfold strlen; rewrite length_app; simpl.
    pose proof (proj1 (decimal_chars n)); lia.
  - now apply strchr_first.
  - simpl. rewrite <- (app_nil_r (decimal n)).
    apply atoi_decimal; [exact Hn | exact I].
Qed.

(** X5: for every integer N that fits an [int], the word [private_slot=N]
    sets the private slot to N modulo 65536 when that is at most 15 and
    otherwise prints the invalid-slot message and changes nothing;
    [public_slot=N] does the same with the public slot.  No external call
    is made either way. *)
Theorem slot_commands_any_integer :
  forall (s : state W) buf rest N,
    INT_MIN <= N <= INT_MAX ->
    scan_s 79 (stdin s) = Some (buf, rest) ->
    (c_str buf = line1 "private_slot" N ->
     interactive_loop P s =
     Ret false
         (if 15 <? N mod 65536
          then mkState (atecc608a_private_key_slot s)
                 (atecc608a_public_key_slot s) rest
                 (trace s ++
                  [Printf USAGE [];
                   Printf "Invalid slot %u provided as a private key slot.\n"
                          [N mod 65536]])
                 (world s)
          else mkState (N mod 65536) (atecc608a_public_key_slot s) rest
                 (trace s ++
                  [Printf USAGE [];
                   Printf "The private key slot in use is now %u.\n"
                          [N mod 65536]])
                 (world s))) /\
    (c_str buf = line1 "public_slot" N ->
     interactive_loop P s =
     Ret false
         (if 15 <? N mod 65536
          then mkState (atecc608a_private_key_slot s)
                 (atecc608a_public_key_slot s) rest
                 (trace s ++
                  [Printf USAGE [];
                   Printf "Invalid slot %u provided as a public key slot.\n"
                          [N mod 65536]])
                 (world s)
          else mkState (atecc608a_private_key_slot s) (N mod 65536) rest
                 (trace s ++
                  [Printf USAGE [];
                   Printf "The public key slot in use is now %u.\n"
                          [N mod 65536]])
                 (world s))).
Proof.
  intros s buf rest N HN Hscan; split; intro E.
  - destruct (line1_facts "private_slot" N buf E) as (Hlen & Hp & Hv);
      [simpl; intuition discriminate | exact HN |].
    apply (interactive_loop_private_slot_parsed s buf rest
             ("="%char :: decimal N) N Hscan);
      try assumption.
    + apply (dispatch_spec (c_str buf) (c_str_nul_free buf)).
      rewrite E; reflexivity.
    + apply Z.leb_gt. change (strlen (str "private_slot=0") - 1) with 13.
      change (strlen (str "private_slot")) with 12 in Hlen. lia.
  - destruct (line1_facts "public_slot" N buf E) as (Hlen & Hp & Hv);
      [simpl; intuition discriminate | exact HN |].
    apply (interactive_loop_public_slot_parsed s buf rest
             ("="%char :: decimal N) N Hscan);
      try assumption.
    + apply (dispatch_spec (c_str buf) (c_str_nul_free buf)).
      rewrite E; reflexivity.
    + apply Z.leb_gt. change (strlen (str "public_slot=9") - 1) with 12.
      change (strlen (str "public_slot")) with 11 in Hlen. lia.
Qed.

Lemma interactive_loop_generate_private_parsed :
  forall (s : state W) buf rest p v,
    scan_s 79 (stdin s) = Some (buf, rest) ->
    dispatch (c_str buf) = CmdGeneratePrivate ->
    (strlen (str "generate_private=0") - 1 <? strlen (c_str buf)) = true ->
    strchr (c_str buf) "=" = Some p ->
    atoi (tl p) = Some v ->
    exists s',
      interactive_loop P s = Ret false s' /\
      calls_of (trace s') =
      calls_of (trace s) ++
      (if 15 <? to_uint16 v then []
       else [p_generate (to_uint16 v) keypair_type key_bits false 0 false]).
Proof.
  intros s buf rest p v Hscan Hd Hlen Hp Hv.
  destruct (15 <? to_uint16 v) eqn:Hr.
  - rewrite (interactive_loop_scan P s buf rest Hscan).
    unfold run_command; rewrite Hd.
    unfold do_generate_private; rewrite Hlen, Hp.
    unfold uint16_atoi_after, bind, ret; simpl; rewrite Hv, Hr.
    unfold printf, emit; simpl.
    eexists; split; [reflexivity|]; simpl.
    repeat (rewrite calls_of_app; simpl). now rewrite !app_nil_r.
  - now apply (interactive_loop_generate_private P s buf rest p v).
Qed.

(** X6: for every integer N that fits an [int], the word
    [generate_private=N] makes exactly one external call, the driver's
    generate operation with slot N modulo 65536, when that is at most 15,
    and no external call otherwise; it returns false. *)
Theorem generate_private_any_integer :
  forall (s : state W) buf rest N,
    INT_MIN <= N <= INT_MAX ->
    scan_s 79 (stdin s) = Some (buf, rest) ->
    c_str buf = line1 "generate_private" N ->
    exists s',
      interactive_loop P s = Ret false s' /\
      calls_of (trace s') =
      calls_of (trace s) ++
      (if 15 <? N mod 65536 then []
       else [p_generate (N mod 65536) keypair_type key_bits false 0 false]).
Proof.
  intros s buf rest N HN Hscan E.
  destruct (line1_facts "generate_private" N buf E) as (Hlen & Hp & Hv);
    [simpl; intuition discriminate | exact HN |].
  apply (interactive_loop_generate_private_parsed s buf rest
           ("="%char :: decimal N) N Hscan); try assumption.
  - apply (dispatch_spec (c_str buf) (c_str_nul_free buf)).
    rewrite E; reflexivity.
  - apply Z.ltb_lt. change (strlen (str "generate_private=0") - 1) with 17.
    change (strlen (str "generate_private")) with 16 in Hlen. lia.
Qed.

Lemma export_import_rejects : forall a b (s : state W),
  (15 <? a) || (15 <? b) = true ->
  export_import P a b s =
  Ret false
      (add_trace s
         [Printf "Invalid slots provided for generate_public command: %u, %u\n"
                 [a; b]]).
Proof.
  intros a b s H; unfold export_import; rewrite H. reflexivity.
Qed.

(** X7: for all integers A and B that fit an [int], the word
    [generate_public=A_B] exports from slot A modulo 65536 and, when the
    export succeeded, imports the exported key into slot B modulo 65536;
    when either slot modulo 65536 exceeds 15 it makes no external call.
    It returns false in every case. *)
Theorem generate_public_any_integers :
  forall (s : state W) buf rest A B,
    INT_MIN <= A <= INT_MAX ->
    INT_MIN <= B <= INT_MAX ->
    scan_s 79 (stdin s) = Some (buf, rest) ->
    c_str buf = line2 A B ->
    exists s',
      interactive_loop P s = Ret false s' /\
      calls_of (trace s') =
      calls_of (trace s) ++
      (if (15 <? A mod 65536) || (15 <? B mod 65536) then []
       else
         p_export (A mod 65536) ::
         (let r := fst (env P (p_export (A mod 65536)) (world s)) in
          if status r =? PSA_SUCCESS
          then [p_import (B mod 65536) (data r)
                         (Z.of_nat (List.length (data r)))]
          else [])).
Proof.
  intros s buf rest A B HA HB Hscan E.
  pose proof (decimal_chars A) as [HlA _].
  pose proof (decimal_chars B) as [HlB _].
  assert (Hrun : interactive_loop P s =
                 export_import P (to_uint16 A) (to_uint16 B)
                   (mkState (atecc608a_private_key_slot s)
                      (atecc608a_public_key_slot s) rest
                      (trace s ++ [Printf USAGE []]) (world s))).
  { apply (interactive_loop_generate_public P s buf rest
             ("="%char :: decimal A ++ "_"%char :: decimal B)
             ("_"%char :: decimal B) A B Hscan).
    - apply (dispatch_spec (c_str buf) (c_str_nul_free buf)).
      rewrite E; reflexivity.
    - apply Z.leb_gt. rewrite E; unfold line2, strlen.
      rewrite length_app; simpl; rewrite length_app; simpl. lia.
    - rewrite E. apply strchr_first. simpl; intuition discriminate.
    - simpl. apply atoi_decimal; [exact HA | reflexivity].
    - rewrite E; unfold line2.
      change (str "generate_public" ++
              "="%char :: decimal A ++ "_"%char :: decimal B)
        with (str "generate_public=" ++ decimal A ++ "_"%char :: decimal B).
      rewrite app_assoc. apply strrchr_last.
      apply decimal_without; [reflexivity | discriminate].
    - simpl. rewrite <- (app_nil_r (decimal B)).
      apply atoi_decimal; [exact HB | exact I]. }
  rewrite Hrun. unfold to_uint16.
  destruct ((15 <? A mod 65536) || (15 <? B mod 65536)) eqn:Hr.
  - rewrite (export_import_rejects _ _ _ Hr).
    eexists; split; [reflexivity|]; simpl.
    repeat (rewrite calls_of_app; simpl). now rewrite !app_nil_r.
  - apply orb_false_iff in Hr as [Ha Hb].
    destruct (export_import_calls P (A mod 65536) (B mod 65536)
                (mkState (atecc608a_private_key_slot s)
                   (atecc608a_public_key_slot s) rest
                   (trace s ++ [Printf USAGE []]) (world s)) Ha Hb)
      as (s' & Hs' & Hc).
    exists s'; split; [exact Hs'|].
    rewrite Hc; simpl. rewrite calls_of_app; simpl. now rewrite app_nil_r.
Qed.

End TypedArguments.

(** ** The zone checks of [run_tests] *)

Section Gates.

Context {W : Type} (P : platform W).




End Gates.

(** ** More on one iteration *)

Ltac run_inv H :=
  repeat
    match type of H with
    | Ret _ _ = Ret _ _ => inversion H; subst; clear H
    | NoInput = Ret _ _ => discriminate H
    | Undefined = Ret _ _ => discriminate H
    | context [match ?x with _ => _ end] =>
        lazymatch x with
        | context [match _ with _ => _ end] => fail
        | _ => destruct x eqn:?; simpl in H
        end
    end.

Lemma skip_space_split : forall s,
  exists ws, s = ws ++ skip_space s /\ forallb isspace ws = true.
Proof.
  induction s as [|c s (ws & E & Hws)]; simpl.
  - exists []; auto.
  - destruct (isspace c) eqn:Hc.
    + exists (c :: ws); simpl; rewrite Hc, Hws; split; [now f_equal | reflexivity].
    + exists []; auto.
Qed.

Lemma read_token_split : forall n s tok rest,
  read_token n s = (tok, rest) ->
  s = tok ++ rest /\
  (List.length tok <= n)%nat /\
  forallb (fun c => negb (isspace c)) tok = true.
Proof.
  induction n as [|n IH]; intros s tok rest H; simpl in H.
  - inversion H; subst; simpl; auto.
  - destruct s as [|c s]; [inversion H; subst; simpl; auto with arith|].
    destruct (isspace c) eqn:Hc; [inversion H; subst; simpl; auto with arith|].
    destruct (read_token n s) as [t r] eqn:E.
    inversion H; subst; clear H.
    destruct (IH _ _ _ E) as (Hs & Hl & Hf).
    simpl; rewrite Hc, Hf; simpl. subst s; repeat split; auto with arith.
Qed.

(** A word of non-blank characters at the head of the input is read whole
    when it has at most [n] characters and is followed by white space or
    the end; of a longer word the first [n] characters are read. *)
Lemma read_token_word : forall n word tail,
  forallb (fun c => negb (isspace c)) word = true ->
  match tail with [] => True | c :: _ => isspace c = true end ->
  read_token n (word ++ tail) = (firstn n word, skipn n word ++ tail).
Proof.
  induction n as [|n IH]; intros word tail Hw Ht; [reflexivity|].
  destruct word as [|c word]; simpl.
  - destruct tail as [|c tail]; [reflexivity | now rewrite Ht].
  - simpl in Hw; apply andb_prop in Hw as [Hc Hw].
    apply negb_true_iff in Hc; rewrite Hc.
    now rewrite (IH word tail Hw Ht).
Qed.

Lemma c_str_length : forall buf,
  (List.length (c_str buf) <= List.length buf)%nat.
Proof.
  induction buf as [|c buf IH]; simpl; [lia|].
  destruct (code c =? 0); simpl; lia.
Qed.

Section Iteration.

Context {W : Type} (P : platform W).

(** X9: an iteration that returns has skipped the white space at the head
    of the input and read from there one word of 1 to 79 characters, none
    of them white space; the command it ran has at most 79 characters, so
    the 80 bytes of the buffer suffice; and what it leaves in the input is
    no longer than what followed the word. *)
Theorem iteration_reads_one_word : forall (s : state W) b s',
  interactive_loop P s = Ret b s' ->
  exists buf rest,
    scan_s 79 (stdin s) = Some (buf, rest) /\
    skip_space (stdin s) = buf ++ rest /\
    (1 <= List.length buf <= 79)%nat /\
    forallb (fun c => negb (isspace c)) buf = true /\
    strlen (c_str buf) <= 79 /\
    (List.length (stdin s') <= List.length rest)%nat.
Proof.
  intros s b s' H.
  destruct (scan_s 79 (stdin s)) as [[buf rest]|] eqn:E.
  - exists buf, rest; split; [reflexivity|].
    rewrite (interactive_loop_scan P s buf rest E) in H.
    apply run_command_session in H as (_ & _ & _ & Hlen & _); simpl in Hlen.
    destruct (scan_s_some _ _ _ _ E) as [(c & buf' & Eb & _) _].
    unfold scan_s in E.
    destruct (skip_space (stdin s)) as [|c0 s0] eqn:Es; [discriminate|].
    assert (E1 : read_token 79 (c0 :: s0) = (buf, rest)) by congruence.
    apply read_token_split in E1 as (Hs & Hl & Hf).
    pose proof (c_str_length buf) as Hc.
    repeat split; auto.
    + subst buf; simpl; lia.
    + unfold strlen; lia.
  - rewrite (interactive_loop_no_input P s E) in H; discriminate.
Qed.

(** X10: a word longer than 79 characters is not read whole: the iteration
    runs its first 79 characters as the command and leaves the others at
    the head of the input, where the next iteration finds them. *)
Theorem long_word_is_split : forall (s : state W) ws word tail,
  stdin s = ws ++ word ++ tail ->
  forallb isspace ws = true ->
  forallb (fun c => negb (isspace c)) word = true ->
  (79 < List.length word)%nat ->
  interactive_loop P s =
  run_command P (c_str (firstn 79 word))
    (mkState (atecc608a_private_key_slot s) (atecc608a_public_key_slot s)
             (skipn 79 word ++ tail)
             (trace s ++ [Printf USAGE []]) (world s)).
Proof.
  intros s ws word tail Hin Hws Hw Hlen.
  apply interactive_loop_scan.
  rewrite Hin; unfold scan_s.
  destruct word as [|c word]; [simpl in Hlen; lia|].
  pose proof Hw as Hw'.
  simpl in Hw'; apply andb_prop in Hw' as [Hc _].
  apply negb_true_iff in Hc.
  change ((c :: word) ++ tail) with (c :: (word ++ tail)).
  rewrite (skip_space_spaces ws c (word ++ tail) Hws Hc).
  f_equal.
  change (c :: word ++ tail) with ((c :: word) ++ tail).
  rewrite <- (firstn_skipn 79 (c :: word)) at 1.
  rewrite <- app_assoc.
  set (w1 := firstn 79 (c :: word)).
  set (w2 := skipn 79 (c :: word)).
  assert (H1 : forallb (fun c => negb (isspace c)) w1 = true).
  { subst w1. rewrite <- (firstn_skipn 79 (c :: word)) in Hw.
    rewrite forallb_app in Hw. now apply andb_prop in Hw as [H _]. }
  assert (Hl1 : List.length w1 = 79%nat).
  { subst w1; rewrite length_firstn. lia. }
  clear - H1 Hl1.
  revert H1 Hl1; generalize 79%nat as n; generalize (w2 ++ tail) as r.
  induction w1 as [|a w1 IH]; intros r n H1 Hl1; simpl in *.
  - subst n; reflexivity.
  - destruct n as [|n]; [discriminate|].
    apply andb_prop in H1 as [Ha H1]. apply negb_true_iff in Ha.
    simpl; rewrite Ha.
    injection Hl1 as Hl1.
    now rewrite (IH r n H1 Hl1).
Qed.

(** X11: a word dispatched to [private_slot] that is shorter than
    [private_slot=0], or to [public_slot] and shorter than
    [public_slot=9], is answered with the request for a slot: the
    iteration returns false, makes no external call and leaves the session
    slots as they are, whatever follows the keyword. *)
Theorem slot_commands_need_argument : forall (s : state W) buf rest,
  scan_s 79 (stdin s) = Some (buf, rest) ->
  (starts_with (str "private_slo") (c_str buf) ->
   strlen (c_str buf) < strlen (str "private_slot=0") ->
   interactive_loop P s =
   Ret false
       (mkState (atecc608a_private_key_slot s) (atecc608a_public_key_slot s)
                rest
                (trace s ++
                 [Printf USAGE [];
                  Printf "Please specify a slot that will be used as a private key in tests.\n"
                         []])
                (world s))) /\
  (starts_with (str "public_slo") (c_str buf) ->
   strlen (c_str buf) < strlen (str "public_slot=9") ->
   interactive_loop P s =
   Ret false
       (mkState (atecc608a_private_key_slot s) (atecc608a_public_key_slot s)
                rest
                (trace s ++
                 [Printf USAGE [];
                  Printf "Please specify a slot that will be used as a public key in tests.\n"
                         []])
                (world s))).
Proof.
  intros s buf rest Hscan.
  pose proof (dispatch_spec (c_str buf) (c_str_nul_free buf))
    as (_ & _ & _ & _ & _ & _ & _ & Hpriv & Hpub).
  split; intros Hd Hlen.
  - apply Hpriv in Hd.
    rewrite (interactive_loop_scan P s buf rest Hscan).
    unfold run_command; rewrite Hd.
    unfold do_private_slot.
    replace (strlen (c_str buf) <=? strlen (str "private_slot=0") - 1)
      with true by (symmetry; apply Z.leb_le; lia).
    unfold bind, printf, emit, ret; simpl.
    now rewrite <- app_assoc.
  - apply Hpub in Hd.
    rewrite (interactive_loop_scan P s buf rest Hscan).
    unfold run_command; rewrite Hd.
    unfold do_public_slot.
    replace (strlen (c_str buf) <=? strlen (str "public_slot=9") - 1)
      with true by (symmetry; apply Z.leb_le; lia).
    unfold bind, printf, emit, ret; simpl.
    now rewrite <- app_assoc.
Qed.

(** X12: a word dispatched to [generate_private] that is shorter than
    [generate_private=0] or holds no [=] generates in the default slot 0:
    the only external call is the driver's generate operation with slot
    0.  An argument on a word of 17 characters or fewer is ignored. *)
Theorem generate_private_default_slot : forall (s : state W) buf rest,
  scan_s 79 (stdin s) = Some (buf, rest) ->
  starts_with (str "generate_privat") (c_str buf) ->
  strlen (c_str buf) < strlen (str "generate_private=0") \/
  ~ In "="%char (c_str buf) ->
  exists s',
    interactive_loop P s = Ret false s' /\
    calls_of (trace s') =
    calls_of (trace s) ++ [p_generate 0 keypair_type key_bits false 0 false].
Proof.
  intros s buf rest Hscan Hd Hdef.
  apply (dispatch_spec (c_str buf) (c_str_nul_free buf)) in Hd.
  rewrite (interactive_loop_scan P s buf rest Hscan).
  unfold run_command; rewrite Hd.
  unfold do_generate_private.
  replace ((strlen (str "generate_private=0") - 1 <? strlen (c_str buf)) &&
           negb (is_null (strchr (c_str buf) "=")))
    with false.
  - unfold bind, ret, printf, emit, call; simpl.
    destruct (env P (p_generate 0 keypair_type key_bits false 0 false)
                (world s)) as [r w1]; simpl.
    destruct (status r =? PSA_SUCCESS); simpl;
      eexists; (split; [reflexivity|]); simpl;
      repeat (rewrite calls_of_app; simpl);
      rewrite ?app_nil_r, <- ?app_assoc; reflexivity.
  - symmetry; apply andb_false_iff.
    destruct Hdef as [Hlen|Hno].
    + left; apply Z.ltb_ge; lia.
    + right. now rewrite (strchr_none _ _ Hno).
Qed.

(** X13: a word that is none of [info], [exit], [test],
    [write_lock_config], [lock_data] and starts with none of
    [generate_privat], [generate_publi], [private_slo], [public_slo] is
    answered with the unrecognized-command message that quotes it: the
    iteration returns false, makes no external call and changes neither
    the session slots nor the platform. *)
Theorem unrecognized_word : forall (s : state W) buf rest,
  scan_s 79 (stdin s) = Some (buf, rest) ->
  ~ In (c_str buf)
       [str "info"; str "exit"; str "test"; str "write_lock_config";
        str "lock_data"] ->
  (forall prefix,
     In prefix [str "generate_privat"; str "generate_publi";
                str "private_slo"; str "public_slo"] ->
     ~ starts_with prefix (c_str buf)) ->
  interactive_loop P s =
  Ret false
      (mkState (atecc608a_private_key_slot s) (atecc608a_public_key_slot s)
               rest
               (trace s ++
                [Printf USAGE [];
                 PrintfS "Unrecognized command - \'%s\'.\n" (c_str buf)])
               (world s)).
Proof.
  intros s buf rest Hscan Hword Hprefix.
  pose proof (dispatch_spec (c_str buf) (c_str_nul_free buf))
    as (H1 & H2 & H3 & H4 & H5 & H6 & H7 & H8 & H9).
  assert (Hd : dispatch (c_str buf) = CmdUnrecognized).
  { destruct (dispatch (c_str buf)); try reflexivity; exfalso.
    - apply Hword; rewrite (proj1 H1 eq_refl); simpl; auto.
    - apply Hword; rewrite (proj1 H2 eq_refl); simpl; auto.
    - apply Hword; rewrite (proj1 H3 eq_refl); simpl; auto.
    - apply (Hprefix (str "generate_privat")); [simpl; auto | now apply H6].
    - apply (Hprefix (str "generate_publi")); [simpl; auto | now apply H7].
    - apply Hword; rewrite (proj1 H4 eq_refl); simpl; auto 6.
    - apply Hword; rewrite (proj1 H5 eq_refl); simpl; auto 6.
    - apply (Hprefix (str "private_slo")); [simpl; auto | now apply H8].
    - apply (Hprefix (str "public_slo")); [simpl; auto 6 | now apply H9]. }
  rewrite (interactive_loop_scan P s buf rest Hscan).
  unfold run_command; rewrite Hd.
  unfold bind, emit, ret; simpl.
  now rewrite <- app_assoc.
Qed.

Lemma scan_s_word : forall n word tail,
  word <> [] ->
  forallb (fun c => negb (isspace c)) word = true ->
  (List.length word <= n)%nat ->
  match tail with [] => True | c :: _ => isspace c = true end ->
  scan_s n (word ++ tail) = Some (word, tail).
Proof.
  intros n word tail Hne Hw Hlen Ht; unfold scan_s.
  destruct word as [|c word]; [contradiction|].
  pose proof Hw as Hw'.
  simpl in Hw'; apply andb_prop in Hw' as [Hc _].
  apply negb_true_iff in Hc.
  change ((c :: word) ++ tail) with (c :: (word ++ tail)).
  cbn [skip_space]; rewrite Hc.
  change (c :: (word ++ tail)) with ((c :: word) ++ tail).
  rewrite (read_token_word n (c :: word) tail Hw Ht).
  rewrite firstn_all2, skipn_all2 by exact Hlen. reflexivity.
Qed.

(** What the confirmation prompt leaves behind, whatever the answer. *)
Lemma lock_commands_input : forall (s : state W) command ws c rest b s',
  command = str "write_lock_config" \/ command = str "lock_data" ->
  stdin s = ws ++ c :: rest ->
  forallb isspace ws = true ->
  isspace c = false ->
  run_command P command s = Ret b s' ->
  b = false /\
  stdin s' = rest /\
  atecc608a_private_key_slot s' = atecc608a_private_key_slot s /\
  atecc608a_public_key_slot s' = atecc608a_public_key_slot s.
Proof.
  intros s command ws c rest b s' Hcmd Hin Hws Hc H.
  destruct Hcmd; subst command; unfold run_command in H; simpl in H.
  - unfold do_write_lock_config, bind in H.
    rewrite (prompt_confirmation_reads WARNING_CONFIG s ws c rest Hws Hc Hin)
      in H.
    unfold printf, emit, call, ret in H; simpl in H.
    run_inv H; simpl; auto.
  - unfold do_lock_data, bind in H.
    rewrite (prompt_confirmation_reads WARNING_DATA s ws c rest Hws Hc Hin)
      in H.
    unfold printf, emit, call, ret in H; simpl in H.
    run_inv H; simpl; auto.
Qed.

(** X14: the confirmation prompt takes one character only.  When the
    answer to [write_lock_config] or [lock_data] is a longer word, the
    iteration returns false with the rest of the word still in the input,
    and the next iteration runs that rest as its command. *)
Theorem answer_remainder_is_next_command :
  forall (s : state W) buf input ws c word tail b s1,
    scan_s 79 (stdin s) = Some (buf, input) ->
    c_str buf = str "write_lock_config" \/ c_str buf = str "lock_data" ->
    input = ws ++ c :: word ++ tail ->
    forallb isspace ws = true ->
    isspace c = false ->
    word <> [] ->
    forallb (fun c => negb (isspace c)) word = true ->
    (List.length word <= 79)%nat ->
    match tail with [] => True | c :: _ => isspace c = true end ->
    interactive_loop P s = Ret b s1 ->
    b = false /\
    interactive_loop P s1 =
    run_command P (c_str word)
      (mkState (atecc608a_private_key_slot s) (atecc608a_public_key_slot s)
               tail (trace s1 ++ [Printf USAGE []]) (world s1)).
Proof.
  intros s buf input ws c word tail b s1
         Hscan Hcmd Hin Hws Hc Hne Hw Hlen Ht H.
  rewrite (interactive_loop_scan P s buf input Hscan) in H.
  subst input.
  match type of H with
  | run_command _ _ ?s0 = _ =>
      destruct (lock_commands_input s0 (c_str buf) ws c (word ++ tail) b s1
                  Hcmd eq_refl Hws Hc H)
        as (Hb & Hi & Hp & Hq)
  end.
  split; [exact Hb|].
  simpl in Hp, Hq; rewrite <- Hp, <- Hq.
  apply interactive_loop_scan.
  rewrite Hi. now apply scan_s_word.
Qed.

Lemma prompt_confirmation_true : forall message (s : state W) s',
  prompt_confirmation message s = Ret true s' ->
  confirmed (stdin s) /\
  calls_of (trace s') = calls_of (trace s) /\
  world s' = world s.
Proof.
  intros message s s' H.
  unfold prompt_confirmation, bind, printf, emit, scanf, undefined, ret in H;
    simpl in H.
  destruct (scan_s 1 (stdin s)) as [[buf rest]|] eqn:E; [|discriminate].
  unfold scan_s in E.
  destruct (skip_space_split (stdin s)) as (ws & Hs & Hws).
  destruct (skip_space (stdin s)) as [|c0 s0] eqn:Es; [discriminate|].
  pose proof (skip_space_head _ _ _ Es) as Hc0.
  simpl in E; rewrite Hc0 in E; inversion E; subst buf rest; clear E.
  simpl in H.
  destruct (Ascii.eqb c0 "y" || Ascii.eqb c0 "Y") eqn:Ey;
    inversion H; subst; clear H; simpl.
  repeat split.
  - exists ws, c0, s0; repeat split; auto.
    apply orb_true_iff in Ey as [Ey|Ey]; apply Ascii.eqb_eq in Ey; auto.
  - repeat (rewrite calls_of_app; simpl). now rewrite !app_nil_r.
Qed.

(** The external calls of a command that returns: a zone is locked only
    by its own command and only after a confirmed prompt. *)
Lemma run_command_locking : forall command (s : state W) b s',
  run_command P command s = Ret b s' ->
  exists cs,
    calls_of (trace s') = calls_of (trace s) ++ cs /\
    (Forall not_locking cs \/
     (dispatch command = CmdWriteLockConfig /\
      cs = [atecc608a_write_lock_config] /\ confirmed (stdin s)) \/
     (dispatch command = CmdLockData /\
      cs = [atecc608a_lock_data_zone] /\ confirmed (stdin s))).
Proof.
  intros command s b s' H.
  assert (Hro : forall c, read_only_call c -> not_locking c)
    by (intros []; simpl; intros []; split; discriminate).
  assert (Hte : forall p q c, tests_call p q c -> not_locking c)
    by (intros p q []; simpl; intros; try contradiction; split; discriminate).
  assert (Hnl : forall c, c <> atecc608a_write_lock_config ->
                          c <> atecc608a_lock_data_zone ->
                          Forall not_locking [c])
    by (intros; repeat constructor; assumption).
  pose proof H as H0.
  unfold run_command in H.
  destruct (dispatch command) eqn:D.
  - destruct (calls_within_print_device_info P _ _ s eq_refl eq_refl)
      as (a & s1 & cs & E & _ & _ & _ & Hc & HQ).
    unfold bind, ret in H; rewrite E in H; inversion H; subst.
    exists cs; split; [exact Hc|]; left.
    eapply Forall_impl; [|exact HQ]. exact Hro.
  - unfold ret in H; inversion H; subst.
    exists []; rewrite app_nil_r; auto.
  - destruct (calls_within_run_tests P _ _ s eq_refl eq_refl)
      as (a & s1 & cs & E & _ & _ & _ & Hc & HQ).
    unfold bind, ret in H; rewrite E in H; inversion H; subst.
    exists cs; split; [exact Hc|]; left.
    eapply Forall_impl; [|exact HQ]. apply Hte.
  - destruct (slot_commands_forward_valid_slots P command s b s'
                (or_introl D) H0) as (cs & Hc & HQ).
    exists cs; split; [exact Hc|]; left.
    eapply Forall_impl; [|exact HQ].
    intros []; simpl; intros; try contradiction; split; discriminate.
  - destruct (slot_commands_forward_valid_slots P command s b s'
                (or_intror D) H0) as (cs & Hc & HQ).
    exists cs; split; [exact Hc|]; left.
    eapply Forall_impl; [|exact HQ].
    intros []; simpl; intros; try contradiction; split; discriminate.
  - unfold do_write_lock_config, bind in H.
    destruct (prompt_confirmation WARNING_CONFIG s) as [a s1| |] eqn:E;
      try discriminate.
    destruct a.
    + apply prompt_confirmation_true in E as (Hconf & Hc & Hw).
      unfold printf, emit, call, ret in H; simpl in H.
      run_inv H; simpl;
        (exists [atecc608a_write_lock_config]; split;
         [repeat (rewrite calls_of_app; simpl);
          rewrite ?app_nil_r, Hc; reflexivity
         | right; left; auto]).
    + apply prompt_confirmation_session in E as (_ & _ & _ & Hc & _).
      unfold ret in H; simpl in H; inversion H; subst.
      exists []; rewrite app_nil_r; auto.
  - unfold do_lock_data, bind in H.
    destruct (prompt_confirmation WARNING_DATA s) as [a s1| |] eqn:E;
      try discriminate.
    destruct a.
    + apply prompt_confirmation_true in E as (Hconf & Hc & Hw).
      unfold printf, emit, call, ret in H; simpl in H.
      run_inv H; simpl;
        (exists [atecc608a_lock_data_zone]; split;
         [repeat (rewrite calls_of_app; simpl);
          rewrite ?app_nil_r, Hc; reflexivity
         | right; right; auto]).
    + apply prompt_confirmation_session in E as (_ & _ & _ & Hc & _).
      unfold ret in H; simpl in H; inversion H; subst.
      exists []; rewrite app_nil_r; auto.
  - unfold do_private_slot, bind in H.
    destruct (strlen command <=? strlen (str "private_slot=0") - 1).
    + unfold printf, emit, ret in H; simpl in H; run_inv H; simpl.
      exists []; rewrite calls_of_app; simpl; auto.
    + destruct (uint16_atoi_after (strchr command "=") s) as [v s1| |] eqn:E;
        try discriminate.
      apply uint16_atoi_after_ret in E as [-> Hv].
      unfold set_private_key_slot, printf, emit, ret in H; simpl in H.
      run_inv H; simpl;
        exists []; repeat (rewrite calls_of_app; simpl);
        rewrite ?app_nil_r; auto.
  - unfold do_public_slot, bind in H.
    destruct (strlen command <=? strlen (str "public_slot=9") - 1).
    + unfold printf, emit, ret in H; simpl in H; run_inv H; simpl.
      exists []; rewrite calls_of_app; simpl; auto.
    + destruct (uint16_atoi_after (strchr command "=") s) as [v s1| |] eqn:E;
        try discriminate.
      apply uint16_atoi_after_ret in E as [-> Hv].
      unfold set_public_key_slot, printf, emit, ret in H; simpl in H.
      run_inv H; simpl;
        exists []; repeat (rewrite calls_of_app; simpl);
        rewrite ?app_nil_r; auto.
  - unfold bind, emit, ret in H; simpl in H; run_inv H; simpl.
    exists []; rewrite calls_of_app; simpl; auto.
Qed.

(** X15: an iteration calls [atecc608a_write_lock_config] only when the
    word read is exactly [write_lock_config], and
    [atecc608a_lock_data_zone] only when it is exactly [lock_data]; in
    both cases the response to the prompt started with [y] or [Y], and the
    call is the only external call of the iteration. *)
Theorem locking_needs_confirmation :
  forall (s : state W) b s' buf rest cs,
    interactive_loop P s = Ret b s' ->
    scan_s 79 (stdin s) = Some (buf, rest) ->
    calls_of (trace s') = calls_of (trace s) ++ cs ->
    (In atecc608a_write_lock_config cs ->
     c_str buf = str "write_lock_config" /\
     cs = [atecc608a_write_lock_config] /\ confirmed rest) /\
    (In atecc608a_lock_data_zone cs ->
     c_str buf = str "lock_data" /\
     cs = [atecc608a_lock_data_zone] /\ confirmed rest).
Proof.
  intros s b s' buf rest cs H Hscan Hcs.
  rewrite (interactive_loop_scan P s buf rest Hscan) in H.
  destruct (run_command_locking _ _ _ _ H) as (cs' & Hc & Hcase).
  simpl in Hc. rewrite calls_of_app in Hc; simpl in Hc.
  rewrite app_nil_r in Hc. rewrite Hcs in Hc.
  apply app_inv_head in Hc; subst cs'.
  pose proof (dispatch_spec (c_str buf) (c_str_nul_free buf))
    as (_ & _ & _ & Hwlc & Hld & _).
  simpl in Hcase.
  destruct Hcase as [Hnl | [(Hd & Ecs & Hconf) | (Hd & Ecs & Hconf)]].
  - rewrite Forall_forall in Hnl.
    split; intro Hin; destruct (Hnl _ Hin) as [H1 H2]; congruence.
  - subst cs; split; intro Hin.
    + split; [now apply Hwlc | auto].
    + destruct Hin as [Hin|[]]; discriminate.
  - subst cs; split; intro Hin.
    + destruct Hin as [Hin|[]]; discriminate.
    + split; [now apply Hld | auto].
Qed.

End Iteration.

(** ** The generate commands, the hash test and a failed start *)

Lemma memcmp_eq : forall n a b,
  memcmp a b n = 0 <-> forall i, (i < n)%nat -> nth i a 0 = nth i b 0.
Proof.
  induction n as [|n IH]; intros a b; simpl.
  - split; [intros _ i Hi; lia | reflexivity].
  - assert (Hhd : forall l : list Z, hd 0 l = nth 0 l 0)
      by (intros []; reflexivity).
    assert (Htl : forall (l : list Z) i, nth i (tl l) 0 = nth (S i) l 0)
      by (intros [|x l] i; [destruct i|]; reflexivity).
    destruct (hd 0 a =? hd 0 b) eqn:E.
    + apply Z.eqb_eq in E. rewrite IH.
      split; intros H i Hi.
      * destruct i as [|i]; [now rewrite <- !Hhd|].
        rewrite <- !Htl. apply H; lia.
      * rewrite !Htl. apply H; lia.
    + apply Z.eqb_neq in E.
      split; intro H; [lia|].
      exfalso; apply E. rewrite !Hhd. apply H; lia.
Qed.

Section MoreFacts.

Context {W : Type} (P : platform W).

(** X16: whatever follows the keyword on a word dispatched to
    [generate_private] or [generate_public] (digits, letters, a sign, a
    number that wraps), every external call of an iteration that returns
    names a key slot from 0 to 15. *)
Theorem generate_commands_valid_slots :
  forall (s : state W) b s' buf rest cs,
    interactive_loop P s = Ret b s' ->
    scan_s 79 (stdin s) = Some (buf, rest) ->
    starts_with (str "generate_privat") (c_str buf) \/
    starts_with (str "generate_publi") (c_str buf) ->
    calls_of (trace s') = calls_of (trace s) ++ cs ->
    Forall slot_in_range cs.
Proof.
  intros s b s' buf rest cs H Hscan Hd Hcs.
  rewrite (interactive_loop_scan P s buf rest Hscan) in H.
  pose proof (dispatch_spec (c_str buf) (c_str_nul_free buf))
    as (_ & _ & _ & _ & _ & Hpriv & Hpub & _).
  assert (Hd' : dispatch (c_str buf) = CmdGeneratePrivate \/
                dispatch (c_str buf) = CmdGeneratePublic)
    by (destruct Hd; [left; now apply Hpriv | right; now apply Hpub]).
  destruct (slot_commands_forward_valid_slots P _ _ _ _ Hd' H)
    as (cs' & Hc & HQ).
  simpl in Hc. rewrite calls_of_app in Hc; simpl in Hc.
  rewrite app_nil_r, Hcs in Hc.
  apply app_inv_head in Hc. now subst cs'.
Qed.

(** X17: on a platform whose error codes are not [PSA_SUCCESS],
    [atecc608a_hash_sha256] returns [PSA_SUCCESS] exactly when opening the
    device succeeded, the hash command succeeded and the 32 bytes of the
    digest equal the 32 bytes expected. *)
Theorem hash_sha256_success_iff : forall input expected (s : state W) st s',
  (32 <= List.length expected)%nat ->
  PSA_ERROR_HARDWARE_FAILURE P <> PSA_SUCCESS ->
  (forall e, e <> ATCA_SUCCESS -> atecc608a_to_psa_error P e <> PSA_SUCCESS) ->
  atecc608a_hash_sha256 P input expected s = Ret st s' ->
  let opened := env P atecc608a_init (world s) in
  let hashed := env P (atcab_hw_sha2_256 input) (snd opened) in
  st = PSA_SUCCESS <->
  status (fst opened) = PSA_SUCCESS /\
  status (fst hashed) = ATCA_SUCCESS /\
  forall i, (i < 32)%nat -> nth i (data (fst hashed)) 0 = nth i expected 0.
Proof.
  intros input expected s st s' Hlen Hhw Htr H opened hashed.
  subst opened hashed.
  unfold atecc608a_hash_sha256 in H.
  remember memcmp as compare eqn:Ecmp in H.
  unfold ASSERT_SUCCESS_PSA, ASSERT_SUCCESS,
    ASSERT_STATUS_PSA, ASSERT_STATUS, value, bind, call, printf, emit, ret
    in H; simpl in H.
  destruct (env P atecc608a_init (world s)) as [r1 w1]; simpl in *.
  destruct (status r1 =? PSA_SUCCESS) eqn:E1; simpl in H.
  - apply Z.eqb_eq in E1.
    destruct (env P (atcab_hw_sha2_256 input) w1) as [r2 w2]; simpl in *.
    destruct (status r2 =? ATCA_SUCCESS) eqn:E2; simpl in H.
    + apply Z.eqb_eq in E2.
      destruct (compare (data r2) expected 32%nat =? 0) eqn:E3; simpl in H;
        destruct (env P atecc608a_deinit w2) as [r3 w3];
        inversion H; subst; clear H.
      * apply Z.eqb_eq in E3.
        pose proof (proj1 (memcmp_eq 32 (data r2) expected) E3). tauto.
      * apply Z.eqb_neq in E3.
        pose proof (proj2 (memcmp_eq 32 (data r2) expected)). tauto.
    + apply Z.eqb_neq in E2.
      destruct (env P atecc608a_deinit w2) as [r3 w3];
        inversion H; subst; clear H.
      split; [intro H; exfalso; exact (Htr _ E2 H) | tauto].
  - apply Z.eqb_neq in E1.
    destruct (env P atecc608a_deinit w1) as [r3 w3];
      inversion H; subst; clear H.
    tauto.
Qed.

(** X18: when [psa_crypto_init] fails, [main] has made, besides that call,
    only the calls of [print_device_info], which read the device or
    print: no test is run, no key is touched and no zone is locked. *)
Theorem main_failed_init_read_only : forall (s : state W) st s',
  main P s = Ret st s' ->
  st <> PSA_SUCCESS ->
  exists cs,
    calls_of (trace s') = calls_of (trace s) ++ cs ++ [psa_crypto_init] /\
    Forall read_only_call cs /\
    stdin s' = stdin s.
Proof.
  intros s st s' H Hst.
  destruct (calls_within_print_device_info P _ _ s eq_refl eq_refl)
    as (u & s0 & cs & E0 & _ & _ & Hi0 & Hc0 & HQ).
  unfold main, ASSERT_SUCCESS_PSA, ASSERT_STATUS_PSA, bind in H.
  rewrite E0 in H. unfold call at 1 in H.
  destruct (env P psa_crypto_init (world s0)) as [r w1].
  destruct (status r =? PSA_SUCCESS) eqn:Es;
    cbn [negb] in H; cbv beta iota in H.
  - exfalso.
    destruct (run_tests P _) as [t s2| |]; try discriminate.
    destruct (interactive_loops P _ s2) as [u' s3| |]; try discriminate.
    unfold ret, printf, emit in H; simpl in H.
    inversion H; subst. now apply Hst.
  - unfold printf, emit, ret in H; simpl in H.
    inversion H; subst; clear H; simpl.
    exists cs; split; [|split; [exact HQ | exact Hi0]].
    repeat (rewrite calls_of_app; simpl).
    rewrite !app_nil_r, Hc0. now rewrite <- app_assoc.
Qed.

End MoreFacts.

(** ** Closed instances of the further properties *)


(** X5 at [private_slot=65537], which sets slot 1, and [public_slot=-3],
    which is rejected. *)
Lemma slot_commands_any_integer_witness :
  interactive_loop (stateless all_succeed)
                   (initial_state (line1 "private_slot" 65537) tt) =
  Ret false
      (mkState 1 9 []
         ([] ++ [Printf USAGE [];
                 Printf "The private key slot in use is now %u.\n" [1]])
         tt) /\
  interactive_loop (stateless all_succeed)
                   (initial_state (line1 "public_slot" (-3)) tt) =
  Ret false
      (mkState 0 9 []
         ([] ++ [Printf USAGE [];
                 Printf "Invalid slot %u provided as a public key slot.\n"
                        [65533]])
         tt).
Proof.
  split.
  - apply (proj1 (slot_commands_any_integer (stateless all_succeed)
                    (initial_state (line1 "private_slot" 65537) tt)
                    (line1 "private_slot" 65537) [] 65537
                    ltac:(unfold INT_MIN, INT_MAX; lia) eq_refl)).
    reflexivity.
  - apply (proj2 (slot_commands_any_integer (stateless all_succeed)
                    (initial_state (line1 "public_slot" (-3)) tt)
                    (line1 "public_slot" (-3)) [] (-3)
                    ltac:(unfold INT_MIN, INT_MAX; lia) eq_refl)).
    reflexivity.
Defined.

(** X6 at [generate_private=12] and [generate_private=1000]. *)
Lemma generate_private_any_integer_witness :
  (exists s',
     interactive_loop (stateless all_succeed)
                      (initial_state (line1 "generate_private" 12) tt) =
     Ret false s' /\
     calls_of (trace s') =
     [] ++ [p_generate 12 keypair_type key_bits false 0 false]) /\
  (exists s',
     interactive_loop (stateless all_succeed)
                      (initial_state (line1 "generate_private" 1000) tt) =
     Ret false s' /\
     calls_of (trace s') = [] ++ []).
Proof.
  split.
  - apply (generate_private_any_integer (stateless all_succeed)
             (initial_state (line1 "generate_private" 12) tt)
             (line1 "generate_private" 12) [] 12);
      [unfold INT_MIN, INT_MAX; lia | reflexivity | reflexivity].
  - apply (generate_private_any_integer (stateless all_succeed)
             (initial_state (line1 "generate_private" 1000) tt)
             (line1 "generate_private" 1000) [] 1000);
      [unfold INT_MIN, INT_MAX; lia | reflexivity | reflexivity].
Defined.

(** X7 at [generate_public=2_65546] (slots 2 and 10) and
    [generate_public=2_16]. *)
Lemma generate_public_any_integers_witness :
  (exists s',
     interactive_loop (stateless all_succeed)
                      (initial_state (line2 2 65546) tt) = Ret false s' /\
     calls_of (trace s') = [] ++ [p_export 2; p_import 10 [] 0]) /\
  (exists s',
     interactive_loop (stateless all_succeed)
                      (initial_state (line2 2 16) tt) = Ret false s' /\
     calls_of (trace s') = [] ++ []).
Proof.
  split.
  - apply (generate_public_any_integers (stateless all_succeed)
             (initial_state (line2 2 65546) tt) (line2 2 65546) [] 2 65546);
      try reflexivity; unfold INT_MIN, INT_MAX; lia.
  - apply (generate_public_any_integers (stateless all_succeed)
             (initial_state (line2 2 16) tt) (line2 2 16) [] 2 16);
      try reflexivity; unfold INT_MIN, INT_MAX; lia.
Defined.


(** X9 at the input [  info exit]. *)
Lemma iteration_reads_one_word_witness :
  exists buf rest,
    scan_s 79 (str "  info exit") = Some (buf, rest) /\
    skip_space (str "  info exit") = buf ++ rest /\
    (1 <= List.length buf <= 79)%nat /\
    forallb (fun c => negb (isspace c)) buf = true /\
    strlen (c_str buf) <= 79 /\
    (List.length (str " exit") <= List.length rest)%nat.
Proof.
  eapply (iteration_reads_one_word (stateless all_succeed)
            (initial_state (str "  info exit") tt) false
            (mkState 0 9 (str " exit") _ tt)).
  vm_compute; reflexivity.
Defined.

(** X10 at a word of 81 letters: 79 are run, two stay. *)
Lemma long_word_is_split_witness :
  interactive_loop (stateless all_succeed)
                   (initial_state (repeat "a"%char 81) tt) =
  run_command (stateless all_succeed) (c_str (repeat "a"%char 79))
              (mkState 0 9 (str "aa" ++ []) ([] ++ [Printf USAGE []]) tt).
Proof.
  apply (long_word_is_split (stateless all_succeed)
           (initial_state (repeat "a"%char 81) tt) [] (repeat "a"%char 81) []);
    try reflexivity.
  simpl; lia.
Defined.

(** X11 at the words [private_slo=5] and [public_slot]. *)
Lemma slot_commands_need_argument_witness :
  interactive_loop (stateless all_succeed)
                   (initial_state (str "private_slo=5") tt) =
  Ret false
      (mkState 0 9 []
         ([] ++
          [Printf USAGE [];
           Printf "Please specify a slot that will be used as a private key in tests.\n"
                  []])
         tt) /\
  interactive_loop (stateless all_succeed)
                   (initial_state (str "public_slot") tt) =
  Ret false
      (mkState 0 9 []
         ([] ++
          [Printf USAGE [];
           Printf "Please specify a slot that will be used as a public key in tests.\n"
                  []])
         tt).
Proof.
  split.
  - apply (proj1 (slot_commands_need_argument (stateless all_succeed)
                    (initial_state (str "private_slo=5") tt)
                    (str "private_slo=5") [] eq_refl));
      reflexivity.
  - apply (proj2 (slot_commands_need_argument (stateless all_succeed)
                    (initial_state (str "public_slot") tt)
                    (str "public_slot") [] eq_refl));
      reflexivity.
Defined.

(** X12 at the word [generate_privat=7]: the argument is ignored. *)
Lemma generate_private_default_slot_witness :
  exists s',
    interactive_loop (stateless all_succeed)
                     (initial_state (str "generate_privat=7") tt) =
    Ret false s' /\
    calls_of (trace s') =
    [] ++ [p_generate 0 keypair_type key_bits false 0 false].
Proof.
  apply (generate_private_default_slot (stateless all_succeed)
           (initial_state (str "generate_privat=7") tt)
           (str "generate_privat=7") []).
  - reflexivity.
  - reflexivity.
  - left; reflexivity.
Defined.

(** X13 at the word [EXIT]: matching is case sensitive. *)
Lemma unrecognized_word_witness :
  interactive_loop (stateless all_succeed) (initial_state (str "EXIT") tt) =
  Ret false
      (mkState 0 9 []
         ([] ++ [Printf USAGE [];
                 PrintfS "Unrecognized command - \'%s\'.\n" (str "EXIT")])
         tt).
Proof.
  apply (unrecognized_word (stateless all_succeed)
           (initial_state (str "EXIT") tt) (str "EXIT") []).
  - reflexivity.
  - simpl; intuition discriminate.
  - intros prefix Hin Hs; simpl in Hin.
    repeat (destruct Hin as [Hin|Hin]; [subst prefix; discriminate Hs|]).
    contradiction.
Defined.

(** X14 at the input [lock_data yes]: the lock is made and the next
    iteration runs [es]. *)
Lemma answer_remainder_is_next_command_witness :
  exists s1,
    interactive_loop (stateless all_succeed)
                     (initial_state (str "lock_data yes") tt) =
    Ret false s1 /\
    calls_of (trace s1) = [atecc608a_lock_data_zone] /\
    interactive_loop (stateless all_succeed) s1 =
    run_command (stateless all_succeed) (c_str (str "es"))
                (mkState 0 9 [] (trace s1 ++ [Printf USAGE []]) (world s1)).
Proof.
  eexists; split; [vm_compute; reflexivity|]; split; [reflexivity|].
  eapply (answer_remainder_is_next_command (stateless all_succeed)
            (initial_state (str "lock_data yes") tt)
            (str "lock_data") (str " yes") [" "%char] "y"%char (str "es") []).
  - reflexivity.
  - right; reflexivity.
  - reflexivity.
  - reflexivity.
  - reflexivity.
  - discriminate.
  - reflexivity.
  - simpl; lia.
  - exact I.
  - vm_compute; reflexivity.
Defined.

(** X15 at the input [lock_data y]. *)
Lemma locking_needs_confirmation_witness :
  c_str (str "lock_data") = str "lock_data" /\
  [atecc608a_lock_data_zone] = [atecc608a_lock_data_zone] /\
  confirmed (str " y").
Proof.
  assert (E : exists s',
             interactive_loop (stateless all_succeed)
                              (initial_state (str "lock_data y") tt) =
             Ret false s' /\
             calls_of (trace s') = [] ++ [atecc608a_lock_data_zone])
    by (eexists; split; [vm_compute; reflexivity | reflexivity]).
  destruct E as (s' & E1 & E2).
  apply (proj2 (locking_needs_confirmation (stateless all_succeed)
                  (initial_state (str "lock_data y") tt) false s'
                  (str "lock_data") (str " y") [atecc608a_lock_data_zone]
                  E1 eq_refl E2)).
  left; reflexivity.
Defined.

(** X16 at the word [generate_private=3abc]. *)
Lemma generate_commands_valid_slots_witness :
  Forall slot_in_range [p_generate 3 keypair_type key_bits false 0 false].
Proof.
  assert (E : exists s',
             interactive_loop (stateless all_succeed)
                              (initial_state (str "generate_private=3abc") tt)
             = Ret false s' /\
             calls_of (trace s') =
             [] ++ [p_generate 3 keypair_type key_bits false 0 false])
    by (eexists; split; [vm_compute; reflexivity | reflexivity]).
  destruct E as (s' & E1 & E2).
  apply (generate_commands_valid_slots (stateless all_succeed)
           (initial_state (str "generate_private=3abc") tt) false s'
           (str "generate_private=3abc") [] _ E1 eq_refl
           (or_introl eq_refl) E2).
Defined.

(** X17 on a device whose digest is 32 bytes of 1, against that digest. *)
Lemma hash_sha256_success_iff_witness :
  exists s',
    atecc608a_hash_sha256 (stateless digest_of_ones) [] (repeat 1 32)
                          (initial_state [] tt) = Ret PSA_SUCCESS s' /\
    (PSA_SUCCESS = PSA_SUCCESS <->
     PSA_SUCCESS = PSA_SUCCESS /\
     ATCA_SUCCESS = ATCA_SUCCESS /\
     forall i, (i < 32)%nat ->
               nth i (repeat 1 32) 0 = nth i (repeat 1 32) 0).
Proof.
  eexists; split; [vm_compute; reflexivity|].
  eapply (hash_sha256_success_iff (stateless digest_of_ones) []
            (repeat 1 32) (initial_state [] tt) PSA_SUCCESS).
  - simpl; lia.
  - discriminate.
  - intros e _; discriminate.
  - vm_compute; reflexivity.
Defined.

(** X18 when the framework fails to initialize. *)
Lemma main_failed_init_read_only_witness :
  exists s' cs,
    main (stateless init_fails) (initial_state (str "test exit") tt) =
    Ret (-141) s' /\
    calls_of (trace s') = [] ++ cs ++ [psa_crypto_init] /\
    Forall read_only_call cs /\
    stdin s' = str "test exit".
Proof.
  assert (E : exists s',
             main (stateless init_fails)
                  (initial_state (str "test exit") tt) = Ret (-141) s')
    by (eexists; vm_compute; reflexivity).
  destruct E as (s' & E).
  destruct (main_failed_init_read_only (stateless init_fails)
              (initial_state (str "test exit") tt) (-141) s' E
              ltac:(discriminate))
    as (cs & Hc & HQ & Hi).
  exists s', cs; auto.
Defined.

(** X19 at the inputs [exit] and [info]. *)
Lemma interactive_loop_true_iff_exit_witness :
  interactive_loop (stateless all_succeed) (initial_state (str "exit") tt) =
  Ret true (mkState 0 9 [] ([] ++ [Printf USAGE []]) tt) /\
  forall b s',
    interactive_loop (stateless all_succeed) (initial_state (str "info") tt) =
    Ret b s' ->
    (b = true <-> c_str (str "info") = str "exit").
Proof.
  split.
  - apply (proj2 (interactive_loop_true_iff_exit (stateless all_succeed)
                    (initial_state (str "exit") tt) (str "exit") [] eq_refl)).
    reflexivity.
  - apply (proj1 (interactive_loop_true_iff_exit (stateless all_succeed)
                    (initial_state (str "info") tt) (str "info") [] eq_refl)).
Defined.
